(** * IoT HVAC expansion module: the Flask hub [server/server.py]

    A shallow embedding of the request handlers of [server/server.py] and
    the properties of its specification that can be settled on it.

    The handlers mutate three module-level dicts ([latest_data],
    [hvac_settings], [schedule_settings]) and one CSV file; here they are
    functions on an explicit [server] state, written in a small
    state-and-exception monad so that every Python statement of a handler
    is one line of its embedding.  What the code takes from its
    environment is an argument of the handler: the decoded JSON body, the
    clock reading [datetime.now()], and what becomes of the file
    operation of the call. *)

From Stdlib Require Import ZArith String Ascii List Bool Arith Lia.
From stdpp Require Import gmap strings list fin_maps pretty.

Set Warnings "-register-all".
Local Open Scope string_scope.
Local Open Scope Z_scope.

(** ** Python values

    The values a decoded JSON body is made of.  A float is [m * 2^e]
    (every finite double is of that form) or one of the non-finite values
    that [json.loads] also accepts.  A [str] is its UTF-8 byte sequence:
    byte-wise lexicographic order is then code-point order, which is how
    Python orders two strings. *)

Inductive pyfloat :=
| FFinite (m e : Z)
| FInf (negative : bool)
| FNan.

Inductive pyval :=
| PNone
| PBool (b : bool)
| PInt (z : Z)
| PFloat (f : pyfloat)
| PStr (s : string)
| PList (l : list pyval)
| PDict (d : gmap string pyval).

Inductive pyexn :=
| AttributeError
| TypeError
| KeyError
| ValueError
| OverflowError
| OSError
| CsvError
| BadRequest.

(** [v is None] *)
Definition is_none (v : pyval) : bool :=
  match v with PNone => true | _ => false end.

(** [v.get(k)]: only a dict has the method. *)
Definition dict_get (v : pyval) (k : string) : pyexn + pyval :=
  match v with
  | PDict d => inr (default PNone (d !! k))
  | _ => inl AttributeError
  end.

(** [x == k] for a str [k]: a str equals only the same str. *)
Definition eq_str (k : string) (x : pyval) : bool :=
  match x with PStr s => String.eqb s k | _ => false end.

(** [k in s] for two strs: [k] occurs in [s]. *)
Fixpoint contains (k s : string) : bool :=
  String.prefix k s ||
  match s with
  | EmptyString => false
  | String _ s' => contains k s'
  end.

(** [k in v] for a str [k]: key of a dict, element of a list, substring
    of a str; the other JSON values are not containers. *)
Definition py_in (k : string) (v : pyval) : pyexn + bool :=
  match v with
  | PDict d => inr (bool_decide (is_Some (d !! k)))
  | PList l => inr (existsb (eq_str k) l)
  | PStr s => inr (contains k s)
  | _ => inl TypeError
  end.

(** [v[k]] for a str [k]: lists and strs want integer indices. *)
Definition py_getitem (v : pyval) (k : string) : pyexn + pyval :=
  match v with
  | PDict d => match d !! k with Some x => inr x | None => inl KeyError end
  | _ => inl TypeError
  end.

(** [bool(v)] *)
Definition py_bool (v : pyval) : bool :=
  match v with
  | PNone => false
  | PBool b => b
  | PInt z => negb (z =? 0)
  | PFloat (FFinite m _) => negb (m =? 0)
  | PFloat _ => true
  | PStr s => negb (String.eqb s "")
  | PList l => negb (Nat.eqb (List.length l) 0)
  | PDict d => negb (Nat.eqb (size d) 0)
  end.

(** [int(f)] for a float: truncation towards zero. *)
Definition float_to_int (f : pyfloat) : pyexn + Z :=
  match f with
  | FFinite m e => inr (if 0 <=? e then m * 2 ^ e else Z.quot m (2 ^ (- e)))
  | FInf _ => inl OverflowError
  | FNan => inl ValueError
  end.

(** ** Time: [datetime.now()], [strftime], [strptime] *)

Record datetime := {
  year : nat; month : nat; day : nat;
  hour : nat; minute : nat; second : nat
}.

Definition digit_char (n : nat) : ascii := ascii_of_nat (48 + n).

(** ['%02d' % n], for the two-digit fields of a datetime *)
Definition pad2 (n : nat) : string :=
  String (digit_char (n / 10)) (String (digit_char (n mod 10)) EmptyString).

(** The text [HH:MM] of an hour and a minute. *)
Definition hhmm (h m : nat) : string := pad2 h ++ ":" ++ pad2 m.

(** [strftime('%H:%M')] *)
Definition strftime_HM (t : datetime) : string := hhmm (hour t) (minute t).

(** A time of day as the number of minutes since midnight. *)
Definition minute_of_day (h m : nat) : nat := 60 * h + m.

(** [strftime('%Y-%m-%d %H:%M:%S')]; the year has its four digits. *)
Definition strftime_full (t : datetime) : string :=
  pad2 (year t / 100) ++ pad2 (year t mod 100) ++ "-" ++ pad2 (month t)
  ++ "-" ++ pad2 (day t) ++ " " ++ pad2 (hour t) ++ ":" ++ pad2 (minute t)
  ++ ":" ++ pad2 (second t).

Definition is_digit (c : ascii) : bool :=
  (48 <=? nat_of_ascii c)%nat && (nat_of_ascii c <=? 57)%nat.

Definition digit_val (c : ascii) : nat := nat_of_ascii c - 48.

(** [strptime] matches its directives as regular expressions on a str,
    where [\d] is any decimal digit of Unicode.  The ASCII digits are
    fixed; which other characters are decimal digits depends on the
    Unicode tables of the interpreter, and is a parameter: [other_digit]
    reads, at the head of a text that starts with a byte outside ASCII,
    one such digit and gives its value and the rest of the text. *)
Section Strptime.

Variable other_digit : string -> option (nat * string).

(** [\d] at the head of a text *)
Definition read_digit (s : string) : option (nat * string) :=
  match s with
  | EmptyString => None
  | String c rest =>
      if is_digit c then Some (digit_val c, rest)
      else if (128 <=? nat_of_ascii c)%nat then other_digit s
      else None
  end.

(** The directive [%M] is the regular expression [[0-5]\d|\d]: a digit
    up to 5 and a digit when both are there, else one digit.  It ends the
    format, so the first alternative that matches is taken. *)
Definition match_M (s : string) : option (nat * string) :=
  let two :=
    match s with
    | String c1 rest =>
        if is_digit c1 && (digit_val c1 <=? 5)%nat
        then match read_digit rest with
             | Some (d2, rest') => Some (10 * digit_val c1 + d2, rest')%nat
             | None => None
             end
        else None
    | EmptyString => None
    end in
  match two with
  | Some r => Some r
  | None => read_digit s
  end.

(** What follows the hour in ['%H:%M']: a colon and the minute. *)
Definition match_colon_M (s : string) : option (nat * string) :=
  match s with
  | String ":" rest => match_M rest
  | _ => None
  end.

(** The directive [%H] is [2[0-3]|[0-1]\d|\d]; the alternatives are tried
    in this order and one is kept when the rest of the format matches
    after it. *)
Definition match_HM (s : string) : option (nat * nat * string) :=
  let alt (h : nat) (rest : string) :=
    match match_colon_M rest with
    | Some (m, rest') => Some (h, m, rest')
    | None => None
    end in
  let alt1 :=
    match s with
    | String "2" (String c2 rest) =>
        if is_digit c2 && (digit_val c2 <=? 3)%nat
        then alt (20 + digit_val c2)%nat rest else None
    | _ => None
    end in
  let alt2 :=
    match s with
    | String c1 rest1 =>
        if is_digit c1 && (digit_val c1 <=? 1)%nat
        then match read_digit rest1 with
             | Some (d2, rest) => alt (10 * digit_val c1 + d2)%nat rest
             | None => None
             end
        else None
    | EmptyString => None
    end in
  let alt3 :=
    match read_digit s with
    | Some (d, rest) => alt d rest
    | None => None
    end in
  match alt1 with
  | Some r => Some r
  | None => match alt2 with Some r => Some r | None => alt3 end
  end.

(** [datetime.strptime(v, '%H:%M')]: a [TypeError] when [v] is not a
    str, a [ValueError] when the format does not match or text remains
    after the match; else the hour and minute read. *)
Definition strptime_HM (v : pyval) : pyexn + (nat * nat) :=
  match v with
  | PStr s =>
      match match_HM s with
      | Some (h, m, EmptyString) => inr (h, m)
      | _ => inl ValueError
      end
  | _ => inl TypeError
  end.

End Strptime.

(** Two readings of the digits outside ASCII, for the examples: none at
    all, and the Arabic-Indic digits U+0660 to U+0669, which are the
    bytes D9 A0 to D9 A9. *)
Definition no_other_digit (s : string) : option (nat * string) := None.

Definition arabic_indic_digit (s : string) : option (nat * string) :=
  match s with
  | String c1 (String c2 rest) =>
      if Nat.eqb (nat_of_ascii c1) 217
         && (160 <=? nat_of_ascii c2)%nat && (nat_of_ascii c2 <=? 169)%nat
      then Some (nat_of_ascii c2 - 160, rest)%nat
      else None
  | _ => None
  end.

(** A 24-hour HH:MM string in the strict sense: two digits of an hour
    below 24, a colon, two digits of a minute below 60. *)
Definition valid_HHMM (s : string) : bool :=
  match s with
  | String h1 (String h2 (String ":" (String m1 (String m2 EmptyString)))) =>
      is_digit h1 && is_digit h2 && is_digit m1 && is_digit m2
      && (10 * digit_val h1 + digit_val h2 <? 24)%nat
      && (10 * digit_val m1 + digit_val m2 <? 60)%nat
  | _ => false
  end.

(** ** The server's state

    The three module-level dicts have a fixed set of keys and are updated
    key by key, so each is a record.  [hvac_settings] has no ['source']
    key until a handler first stores one. *)

Record LatestData := {
  temperature : pyval;
  humidity : pyval;
  latest_timestamp : option string
}.

Record HvacSettings := {
  power : pyval;
  set_temp : pyval;
  mode : pyval;
  fan_speed : pyval;
  timer : pyval;
  swing : pyval;
  hvac_timestamp : option string;
  source : option string
}.

Record ScheduleSettings := {
  enabled : bool;
  start_time : string;
  end_time : string;
  schedule_timestamp : option string
}.

(** [DATA_FILE] as the rows a [csv.reader] yields from it, each row its
    cells; [None] when the file does not exist.  How a cell is quoted in
    the file's text is left to the [csv] module. *)
Definition csv_row := list string.

(** The file is written with [newline=''] and read in text mode: a
    carriage return in a cell, alone or before a line feed, is read back
    as a line feed. *)
Fixpoint universal_newlines (s : string) : string :=
  match s with
  | EmptyString => EmptyString
  | String c rest =>
      if Ascii.eqb c "013"
      then match rest with
           | String c' rest' =>
               if Ascii.eqb c' "010"
               then String "010" (universal_newlines rest')
               else String "010" (universal_newlines rest)
           | EmptyString => String "010" EmptyString
           end
      else String c (universal_newlines rest)
  end.

Record server := {
  latest_data : LatestData;
  hvac_settings : HvacSettings;
  schedule_settings : ScheduleSettings;
  data_file : option (list csv_row)
}.

(** What becomes of an append to the file.  [Written]: the row is added
    whole after the complete rows of the file.  [NotWritten]: [open]
    raises its [OSError] and nothing reaches the file.  [Disturbed]:
    anything else, that is, the write raises after a part of the row has
    reached the file, the row has a character that the file's encoding
    cannot write, or the row runs into the unterminated fragment that an
    earlier write left; [after] are the rows that [csv.reader] then
    yields from the file, and [raises] is the exception that the handler
    sees, if any. *)
Inductive write_outcome :=
| Written
| NotWritten
| Disturbed (raises : option pyexn) (after : list csv_row).

(** The exception that the handler sees the append raise. *)
Definition append_raises (disk : write_outcome) : option pyexn :=
  match disk with
  | Written => None
  | NotWritten => Some OSError
  | Disturbed raises _ => raises
  end.

(** The append is one of the two clean outcomes. *)
Definition clean_write (disk : write_outcome) : Prop :=
  disk = Written \/ disk = NotWritten.

(** What becomes of the read of an existing file: it is read to its
    end, or an exception is raised on the way, by [open], by the decoding
    of the file's bytes or by the [csv] reader. *)
Inductive read_outcome :=
| ReadDone
| ReadRaises (e : pyexn).

Definition initial_latest_data : LatestData :=
  {| temperature := PNone; humidity := PNone; latest_timestamp := None |}.

Definition initial_hvac_settings : HvacSettings :=
  {| power := PNone; set_temp := PNone; mode := PNone; fan_speed := PNone;
     timer := PNone; swing := PNone; hvac_timestamp := None; source := None |}.

Definition initial_schedule_settings : ScheduleSettings :=
  {| enabled := false; start_time := "23:00"; end_time := "05:00";
     schedule_timestamp := None |}.

Definition csv_header : csv_row := ["Timestamp"; "Temperature"; "Humidity"].

(** [init_csv()]: write the header row when the file does not exist. *)
Definition init_csv (f : option (list csv_row)) : option (list csv_row) :=
  match f with
  | None => Some [csv_header]
  | Some rows => Some rows
  end.

(** The state after the module is imported, given the file found. *)
Definition initial_server (f : option (list csv_row)) : server :=
  {| latest_data := initial_latest_data;
     hvac_settings := initial_hvac_settings;
     schedule_settings := initial_schedule_settings;
     data_file := init_csv f |}.

(** Assignments [d[key] = v] to the dicts. *)
Definition with_latest_data (f : LatestData -> LatestData) (s : server) : server :=
  {| latest_data := f (latest_data s); hvac_settings := hvac_settings s;
     schedule_settings := schedule_settings s; data_file := data_file s |}.

Definition with_hvac_settings (f : HvacSettings -> HvacSettings) (s : server) : server :=
  {| latest_data := latest_data s; hvac_settings := f (hvac_settings s);
     schedule_settings := schedule_settings s; data_file := data_file s |}.

Definition with_schedule_settings (f : ScheduleSettings -> ScheduleSettings)
    (s : server) : server :=
  {| latest_data := latest_data s; hvac_settings := hvac_settings s;
     schedule_settings := f (schedule_settings s); data_file := data_file s |}.

Definition with_data_file (f : option (list csv_row) -> option (list csv_row))
    (s : server) : server :=
  {| latest_data := latest_data s; hvac_settings := hvac_settings s;
     schedule_settings := schedule_settings s; data_file := f (data_file s) |}.

Definition set_temperature (v : pyval) (d : LatestData) : LatestData :=
  {| temperature := v; humidity := humidity d;
     latest_timestamp := latest_timestamp d |}.
Definition set_humidity (v : pyval) (d : LatestData) : LatestData :=
  {| temperature := temperature d; humidity := v;
     latest_timestamp := latest_timestamp d |}.
Definition set_latest_timestamp (t : string) (d : LatestData) : LatestData :=
  {| temperature := temperature d; humidity := humidity d;
     latest_timestamp := Some t |}.

(** One store into [hvac_settings]: the key and the value stored. *)
Inductive hvac_write :=
| WPower (v : pyval)
| WSetTemp (v : pyval)
| WMode (v : pyval)
| WFanSpeed (v : pyval)
| WTimer (v : pyval)
| WSwing (v : pyval)
| WTimestamp (t : string)
| WSource (o : string).

Definition hvac_store (w : hvac_write) (h : HvacSettings) : HvacSettings :=
  match w with
  | WPower v =>
      {| power := v; set_temp := set_temp h; mode := mode h;
         fan_speed := fan_speed h; timer := timer h; swing := swing h;
         hvac_timestamp := hvac_timestamp h; source := source h |}
  | WSetTemp v =>
      {| power := power h; set_temp := v; mode := mode h;
         fan_speed := fan_speed h; timer := timer h; swing := swing h;
         hvac_timestamp := hvac_timestamp h; source := source h |}
  | WMode v =>
      {| power := power h; set_temp := set_temp h; mode := v;
         fan_speed := fan_speed h; timer := timer h; swing := swing h;
         hvac_timestamp := hvac_timestamp h; source := source h |}
  | WFanSpeed v =>
      {| power := power h; set_temp := set_temp h; mode := mode h;
         fan_speed := v; timer := timer h; swing := swing h;
         hvac_timestamp := hvac_timestamp h; source := source h |}
  | WTimer v =>
      {| power := power h; set_temp := set_temp h; mode := mode h;
         fan_speed := fan_speed h; timer := v; swing := swing h;
         hvac_timestamp := hvac_timestamp h; source := source h |}
  | WSwing v =>
      {| power := power h; set_temp := set_temp h; mode := mode h;
         fan_speed := fan_speed h; timer := timer h; swing := v;
         hvac_timestamp := hvac_timestamp h; source := source h |}
  | WTimestamp t =>
      {| power := power h; set_temp := set_temp h; mode := mode h;
         fan_speed := fan_speed h; timer := timer h; swing := swing h;
         hvac_timestamp := Some t; source := source h |}
  | WSource o =>
      {| power := power h; set_temp := set_temp h; mode := mode h;
         fan_speed := fan_speed h; timer := timer h; swing := swing h;
         hvac_timestamp := hvac_timestamp h; source := Some o |}
  end.

Definition set_enabled (b : bool) (c : ScheduleSettings) : ScheduleSettings :=
  {| enabled := b; start_time := start_time c; end_time := end_time c;
     schedule_timestamp := schedule_timestamp c |}.
Definition set_start_time (t : string) (c : ScheduleSettings) : ScheduleSettings :=
  {| enabled := enabled c; start_time := t; end_time := end_time c;
     schedule_timestamp := schedule_timestamp c |}.
Definition set_end_time (t : string) (c : ScheduleSettings) : ScheduleSettings :=
  {| enabled := enabled c; start_time := start_time c; end_time := t;
     schedule_timestamp := schedule_timestamp c |}.
Definition set_schedule_timestamp (t : string) (c : ScheduleSettings)
    : ScheduleSettings :=
  {| enabled := enabled c; start_time := start_time c; end_time := end_time c;
     schedule_timestamp := Some t |}.

(** ** Responses *)

(** A row of [csv.DictReader]: the header's names zipped with the row's
    cells; a name without a cell maps to [None], and the cells beyond the
    header are collected under the key [None]. *)
Inductive csv_value :=
| Cell (c : string)
| NoCell
| Cells (cs : list string).

Inductive body :=
| Error (msg : string)
| ErrorOf (e : pyexn)
| Ingested (timestamp : string)
| HvacUpdated (settings : HvacSettings)
| ScheduleUpdated (schedule : ScheduleSettings)
| ScheduleDisabled
| ScheduleStatus (should_be_on : bool) (current_time start_ end_ : string)
| History (rows : list (gmap (option string) csv_value)).

Definition response : Type := body * nat.

(** ** The monad of a handler body

    A statement completes, raises, or returns the handler's response;
    the state is threaded through, and what was stored before a raise or
    a return stays stored. *)

Inductive outcome (A : Type) :=
| Ok (a : A)
| Raise (e : pyexn)
| Return (r : response).
Arguments Ok {A} a.
Arguments Raise {A} e.
Arguments Return {A} r.

Definition handler (A : Type) : Type := server -> outcome A * server.

#[export] Instance handler_ret : MRet handler :=
  fun A (a : A) s => (Ok a, s).

#[export] Instance handler_bind : MBind handler :=
  fun A B (k : A -> handler B) (c : handler A) s =>
    match c s with
    | (Ok a, s') => k a s'
    | (Raise e, s') => (Raise e, s')
    | (Return r, s') => (Return r, s')
    end.

Definition raise {A} (e : pyexn) : handler A := fun s => (Raise e, s).
Definition return_ {A} (r : response) : handler A := fun s => (Return r, s).
Definition store (f : server -> server) : handler unit := fun s => (Ok tt, f s).
Definition load : handler server := fun s => (Ok s, s).

(** A builtin that may raise. *)
Definition try_ {A} (r : pyexn + A) : handler A :=
  match r with
  | inl e => raise e
  | inr a => mret a
  end.

(** [if b: body] *)
Definition when_ (b : bool) (c : handler unit) : handler unit :=
  if b then c else mret tt.

(** [try: body  except Exception as e: return jsonify({'error': str(e)}), 500]
    around a body that ends in a [return]. *)
Definition run (c : handler response) (s : server) : response * server :=
  match c s with
  | (Ok r, s') => (r, s')
  | (Return r, s') => (r, s')
  | (Raise e, s') => ((ErrorOf e, 500%nat), s')
  end.

(** [request.get_json()]: the decoded body; a body that does not decode
    raises inside the handler's [try]. *)
Definition get_json (req : option pyval) : handler pyval :=
  match req with
  | Some data => mret data
  | None => raise BadRequest
  end.

(** Python's order on strs, by the first differing character. *)
Definition str_lt (a b : string) : bool := String.ltb a b.
Definition str_le (a b : string) : bool := String.leb a b.
Definition str_gt (a b : string) : bool := String.ltb b a.
Definition str_ge (a b : string) : bool := String.leb b a.

(** ** Reading the CSV file *)

(** One row of [csv.DictReader(f)] under the field names [fieldnames]. *)
Definition row_dict (fieldnames row : csv_row) : gmap (option string) csv_value :=
  let d := foldl (fun m kv => <[Some (fst kv) := Cell (snd kv)]> m) ∅
                 (combine fieldnames row) in
  let lf := List.length fieldnames in
  let lr := List.length row in
  if (lf <? lr)%nat then <[None := Cells (skipn lf row)]> d
  else foldl (fun m key => <[Some key := NoCell]> m) d (skipn lr fieldnames).

Definition is_blank (row : csv_row) : bool :=
  match row with [] => true | _ => false end.

(** [for row in csv.DictReader(f): history.append(row)]: the first row
    names the fields, blank rows are skipped. *)
Definition dict_reader (rows : list csv_row) : list (gmap (option string) csv_value) :=
  match rows with
  | [] => []
  | fieldnames :: rest =>
      map (row_dict fieldnames) (List.filter (fun r => negb (is_blank r)) rest)
  end.

(** [l[-n:]] for a positive [n], and [l[::-1]] is [rev l]. *)
Definition last_n {A} (n : nat) (l : list A) : list A :=
  skipn (List.length l - n) l.

Inductive result :=
| Responded (r : response)
| Unhandled (e : pyexn).

(** [jsonify] sorts the keys of every dict it writes: the key [None] of
    the cells beyond the header cannot be ordered with a name, and
    raises a [TypeError] unless it is the only key. *)
Definition sortable_keys (e : gmap (option string) csv_value) : bool :=
  match e !! None with
  | Some _ => (size e <=? 1)%nat
  | None => true
  end.

(** [get_history()].  The handler has no [try]: what the read of the
    file or [jsonify] raises leaves the view function. *)
Definition get_history (read : read_outcome) (s : server) : result :=
  match data_file s with
  | None => Responded (History [], 200%nat)
  | Some rows =>
      match read with
      | ReadDone =>
          let shown := rev (last_n 50 (dict_reader rows)) in
          if forallb sortable_keys shown
          then Responded (History shown, 200%nat)
          else Unhandled TypeError
      | ReadRaises e => Unhandled e
      end
  end.

(** ** The handlers that write *)

Section Handlers.

(** Two conversions of Python are parameters: [int(s)] of a str
    ([None] for its [ValueError]) and the [str(v)] by which
    [csv.writer] renders a cell; and, for [strptime], the decimal digits
    outside ASCII. *)
Variable str_to_int : string -> option Z.
Variable py_str : pyval -> string.
Variable other_digit : string -> option (nat * string).

(** [int(v)] *)
Definition py_int (v : pyval) : pyexn + Z :=
  match v with
  | PBool b => inr (Z.b2z b)
  | PInt z => inr z
  | PFloat f => float_to_int f
  | PStr s =>
      match str_to_int s with
      | Some z => inr z
      | None => inl ValueError
      end
  | PNone | PList _ | PDict _ => inl TypeError
  end.

(** [with open(DATA_FILE, 'a', newline='') as f: csv.writer(f).writerow(row)]
    when the whole row reaches a file that ends with a complete row (or
    is empty, or is created by the [open]): the row is added, as it will
    be read back. *)
Definition append_row (row : csv_row) (f : option (list csv_row))
    : option (list csv_row) :=
  Some (default [] f ++ [map universal_newlines row])%list.

Definition csv_append (disk : write_outcome) (row : csv_row) : handler unit :=
  match disk with
  | Written => store (with_data_file (append_row row))
  | NotWritten => raise OSError
  | Disturbed raises after =>
      store (with_data_file (fun _ => Some after));;
      match raises with Some e => raise e | None => mret tt end
  end.

Definition hvac_set (w : hvac_write) : handler unit :=
  store (with_hvac_settings (hvac_store w)).

(** [receive_data()], the body of its [try] *)
Definition receive_data_body (req : option pyval) (now : datetime)
    (disk : write_outcome) : handler response :=
  data ← get_json req;
  temperature ← try_ (dict_get data "temperature");
  humidity ← try_ (dict_get data "humidity");
  if is_none temperature || is_none humidity
  then return_ (Error "Missing temperature or humidity", 400%nat)
  else
    let timestamp := strftime_full now in
    store (with_latest_data (set_temperature temperature));;
    store (with_latest_data (set_humidity humidity));;
    store (with_latest_data (set_latest_timestamp timestamp));;
    has_hvac ← try_ (py_in "hvac" data);
    when_ has_hvac (
      hvac ← try_ (py_getitem data "hvac");
      v ← try_ (dict_get hvac "power"); hvac_set (WPower v);;
      v ← try_ (dict_get hvac "set_temp"); hvac_set (WSetTemp v);;
      v ← try_ (dict_get hvac "mode"); hvac_set (WMode v);;
      v ← try_ (dict_get hvac "fan_speed"); hvac_set (WFanSpeed v);;
      v ← try_ (dict_get hvac "timer"); hvac_set (WTimer v);;
      v ← try_ (dict_get hvac "swing"); hvac_set (WSwing v);;
      hvac_set (WTimestamp timestamp);;
      hvac_set (WSource "arduino"));;
    csv_append disk [timestamp; py_str temperature; py_str humidity];;
    mret (Ingested timestamp, 200%nat).

Definition receive_data (req : option pyval) (now : datetime)
    (disk : write_outcome) : server -> response * server :=
  run (receive_data_body req now disk).

(** [if key in data: hvac_settings[key] = data[key]] *)
Definition merge_key (key : string) (w : pyval -> hvac_write) (data : pyval)
    : handler unit :=
  present ← try_ (py_in key data);
  when_ present (v ← try_ (py_getitem data key); hvac_set (w v)).

(** [update_hvac()], the body of its [try] *)
Definition update_hvac_body (req : option pyval) (now : datetime)
    : handler response :=
  data ← get_json req;
  merge_key "power" WPower data;;
  present ← try_ (py_in "set_temp" data);
  when_ present (
    v ← try_ (py_getitem data "set_temp");
    temp ← try_ (py_int v);
    if (16 <=? temp) && (temp <=? 30)
    then hvac_set (WSetTemp (PInt temp))
    else return_ (Error "Temperature must be between 16°C and 30°C", 400%nat));;
  merge_key "mode" WMode data;;
  merge_key "fan_speed" WFanSpeed data;;
  merge_key "timer" WTimer data;;
  merge_key "swing" WSwing data;;
  hvac_set (WTimestamp (strftime_full now));;
  hvac_set (WSource "web");;
  s ← load;
  mret (HvacUpdated (hvac_settings s), 200%nat).

Definition update_hvac (req : option pyval) (now : datetime)
    : server -> response * server :=
  run (update_hvac_body req now).

(** [try: datetime.strptime(v, '%H:%M'); schedule_settings[key] = v
     except ValueError: return jsonify({'error': msg}), 400] *)
Definition store_time (setter : string -> ScheduleSettings -> ScheduleSettings)
    (msg : string) (v : pyval) : handler unit :=
  match strptime_HM other_digit v, v with
  | inr _, PStr t => store (with_schedule_settings (setter t))
  | inr _, _ => raise TypeError
  | inl ValueError, _ => return_ (Error msg, 400%nat)
  | inl e, _ => raise e
  end.

(** [update_schedule()], the body of its [try] *)
Definition update_schedule_body (req : option pyval) (now : datetime)
    : handler response :=
  data ← get_json req;
  present ← try_ (py_in "enabled" data);
  when_ present (
    v ← try_ (py_getitem data "enabled");
    store (with_schedule_settings (set_enabled (py_bool v))));;
  present ← try_ (py_in "start_time" data);
  when_ present (
    v ← try_ (py_getitem data "start_time");
    store_time set_start_time
      "Invalid start_time format. Use HH:MM (24-hour)" v);;
  present ← try_ (py_in "end_time" data);
  when_ present (
    v ← try_ (py_getitem data "end_time");
    store_time set_end_time
      "Invalid end_time format. Use HH:MM (24-hour)" v);;
  store (with_schedule_settings (set_schedule_timestamp (strftime_full now)));;
  s ← load;
  mret (ScheduleUpdated (schedule_settings s), 200%nat).

Definition update_schedule (req : option pyval) (now : datetime)
    : server -> response * server :=
  run (update_schedule_body req now).

End Handlers.

(** [get_schedule_status()], the body of its [try] *)
Definition get_schedule_status_body (now : datetime) : handler response :=
  s ← load;
  if negb (enabled (schedule_settings s))
  then return_ (ScheduleDisabled, 200%nat)
  else
    let current_time := strftime_HM now in
    let start := start_time (schedule_settings s) in
    let end_ := end_time (schedule_settings s) in
    let should_be_on :=
      if str_gt start end_
      then str_ge current_time start || str_lt current_time end_
      else str_le start current_time && str_lt current_time end_ in
    mret (ScheduleStatus should_be_on current_time start end_, 200%nat).

Definition get_schedule_status (now : datetime) : server -> response * server :=
  run (get_schedule_status_body now).

(** Instances of the two conversions for the examples: a str of decimal
    digits read as a number, and a cell rendering that tells the kinds of
    value apart. *)
Fixpoint digits_value (acc : Z) (s : string) : option Z :=
  match s with
  | EmptyString => Some acc
  | String c s' =>
      if is_digit c then digits_value (10 * acc + Z.of_nat (digit_val c)) s'
      else None
  end.

Definition int_of_digits (s : string) : option Z :=
  match s with
  | EmptyString => None
  | _ => digits_value 0 s
  end.

Definition cell_of (v : pyval) : string :=
  match v with
  | PStr s => s
  | PInt z => pretty z
  | PBool true => "True"
  | PBool false => "False"
  | PNone => ""
  | _ => "?"
  end.

(** ** What the properties are stated with *)

(** A required field of a posted reading is missing: the key is not in
    the body, or its value is null ([data.get] gives [None] for both). *)
Definition absent (d : gmap string pyval) (k : string) : Prop :=
  d !! k = None \/ d !! k = Some PNone.

(** The range invariant of the specification on the stored set point. *)
Definition set_temp_ok (h : HvacSettings) : Prop :=
  set_temp h = PNone \/ exists z, set_temp h = PInt z /\ 16 <= z <= 30.

(** A handler body keeps an invariant of the state, however it ends. *)
Definition preserves {A} (I : server -> Prop) (c : handler A) : Prop :=
  forall s, I s -> I (snd (c s)).

(** A reading as the device posts it, with the snapshot of its HVAC
    state when it sends one. *)
Record reading := {
  r_temperature : pyval;
  r_humidity : pyval;
  r_hvac : option (gmap string pyval);
  r_time : datetime
}.

Definition reading_body (r : reading) : pyval :=
  let d : gmap string pyval :=
    <["temperature" := r_temperature r]> (<["humidity" := r_humidity r]> ∅) in
  PDict (match r_hvac r with
         | Some hv => <["hvac" := PDict hv]> d
         | None => d
         end).

Definition reading_ok (r : reading) : Prop :=
  r_temperature r <> PNone /\ r_humidity r <> PNone.

(** The row that [writerow] is given for a reading. *)
Definition reading_row (py_str : pyval -> string) (r : reading) : csv_row :=
  [strftime_full (r_time r); py_str (r_temperature r); py_str (r_humidity r)].

(** The entry of a reading in the history, under the header that
    [init_csv] writes: the three names, each with the text of its cell as
    it is read back. *)
Definition history_entry (py_str : pyval -> string) (r : reading)
    : gmap (option string) csv_value :=
  {[ Some "Timestamp" := Cell (universal_newlines (strftime_full (r_time r)));
     Some "Temperature" := Cell (universal_newlines (py_str (r_temperature r)));
     Some "Humidity" := Cell (universal_newlines (py_str (r_humidity r))) ]}.

(** The device posts the readings one after the other; every write to
    the file goes through. *)
Definition ingest_all (py_str : pyval -> string) (rs : list reading)
    (s : server) : server :=
  foldl (fun s r =>
           snd (receive_data py_str (Some (reading_body r)) (r_time r) Written s))
        s rs.

(** ** Two handlers at once

    Flask's development server handles each request in a thread of its
    own.  [csv_lock] is held around the file operations only; the stores
    into [hvac_settings] are outside it, and a thread can be preempted
    between any two statements.  A handler is then, for [hvac_settings],
    the sequence of its stores, and two concurrent handlers perform an
    interleaving of their sequences. *)

(** The stores of [receive_data] for a snapshot [hvac], in program order. *)
Definition receive_data_stores (hvac : gmap string pyval) (timestamp : string)
    : list hvac_write :=
  [ WPower (default PNone (hvac !! "power"));
    WSetTemp (default PNone (hvac !! "set_temp"));
    WMode (default PNone (hvac !! "mode"));
    WFanSpeed (default PNone (hvac !! "fan_speed"));
    WTimer (default PNone (hvac !! "timer"));
    WSwing (default PNone (hvac !! "swing"));
    WTimestamp timestamp;
    WSource "arduino" ].

Definition store_if_present (w : pyval -> hvac_write) (o : option pyval)
    : list hvac_write :=
  match o with Some v => [w v] | None => [] end.

(** The stores of [update_hvac] for a body [data] that is a dict, in
    program order, up to the statement at which the handler returns or
    raises. *)
Definition update_hvac_stores (str_to_int : string -> option Z)
    (data : gmap string pyval) (timestamp : string) : list hvac_write :=
  let rest :=
    (store_if_present WMode (data !! "mode")
     ++ store_if_present WFanSpeed (data !! "fan_speed")
     ++ store_if_present WTimer (data !! "timer")
     ++ store_if_present WSwing (data !! "swing")
     ++ [WTimestamp timestamp; WSource "web"])%list in
  (store_if_present WPower (data !! "power")
   ++ match data !! "set_temp" with
      | None => rest
      | Some v =>
          match py_int str_to_int v with
          | inr temp =>
              if (16 <=? temp) && (temp <=? 30)
              then WSetTemp (PInt temp) :: rest
              else []
          | inl _ => []
          end
      end)%list.

Definition run_stores (ws : list hvac_write) (h : HvacSettings) : HvacSettings :=
  foldl (fun h w => hvac_store w h) h ws.

(** [interleaving l1 l2 l]: [l] performs the steps of [l1] and of [l2],
    each in its own order. *)
Inductive interleaving {A : Type} : list A -> list A -> list A -> Prop :=
| interleaving_nil : interleaving [] [] []
| interleaving_left a l1 l2 l :
    interleaving l1 l2 l -> interleaving (a :: l1) l2 (a :: l)
| interleaving_right a l1 l2 l :
    interleaving l1 l2 l -> interleaving l1 (a :: l2) (a :: l).

(** The record is as if one handler had run wholly before the other. *)
Definition serial_outcome (ws1 ws2 : list hvac_write) (h h' : HvacSettings)
    : Prop :=
  h' = run_stores (ws1 ++ ws2)%list h \/ h' = run_stores (ws2 ++ ws1)%list h.

(** The record a device snapshot leaves: the stores of [receive_data]
    overwrite every key, the value [None] standing for a key that the
    snapshot does not have. *)
Definition snapshot_record (hvac : gmap string pyval) (timestamp : string)
    : HvacSettings :=
  {| power := default PNone (hvac !! "power");
     set_temp := default PNone (hvac !! "set_temp");
     mode := default PNone (hvac !! "mode");
     fan_speed := default PNone (hvac !! "fan_speed");
     timer := default PNone (hvac !! "timer");
     swing := default PNone (hvac !! "swing");
     hvac_timestamp := Some timestamp;
     source := Some "arduino" |}.

(** [hvac_settings] after an accepted reading whose body has [snapshot]
    under the key ['hvac']. *)
Definition hvac_after_reading (snapshot : option pyval) (timestamp : string)
    (h : HvacSettings) : HvacSettings :=
  match snapshot with
  | Some (PDict hvac) => snapshot_record hvac timestamp
  | _ => h
  end.

(** A clock reading for the examples. *)
Definition example_time : datetime :=
  {| year := 2026; month := 1; day := 9; hour := 3; minute := 4; second := 59 |}.

(** The record an accepted web command leaves on [h]: the keys of the
    body are stored, the set point as the integer that passed the range
    check, and the other fields are those of [h]. *)
Definition web_record (str_to_int : string -> option Z)
    (data : gmap string pyval) (timestamp : string) (h : HvacSettings)
    : HvacSettings :=
  {| power := default (power h) (data !! "power");
     set_temp :=
       match data !! "set_temp" with
       | Some v =>
           match py_int str_to_int v with
           | inr temp => PInt temp
           | inl _ => set_temp h
           end
       | None => set_temp h
       end;
     mode := default (mode h) (data !! "mode");
     fan_speed := default (fan_speed h) (data !! "fan_speed");
     timer := default (timer h) (data !! "timer");
     swing := default (swing h) (data !! "swing");
     hvac_timestamp := Some timestamp;
     source := Some "web" |}.

(** The set point of a web command passes the check of [update_hvac]:
    the body has none, or [int] of it is within 16..30. *)
Definition set_temp_accepted (str_to_int : string -> option Z)
    (data : gmap string pyval) : Prop :=
  data !! "set_temp" = None
  \/ exists v temp, data !! "set_temp" = Some v
       /\ py_int str_to_int v = inr temp /\ 16 <= temp <= 30.

(** The two requests of the example of concurrent handling. *)
Definition example_snapshot : gmap string pyval :=
  {[ "power" := PStr "off"; "set_temp" := PInt 22; "mode" := PStr "cool";
     "fan_speed" := PStr "low"; "timer" := PInt 0; "swing" := PStr "off" ]}.

Definition example_command : gmap string pyval :=
  {[ "power" := PStr "on"; "set_temp" := PInt 24 ]}.

(** What the check of [update_schedule] does ensure of a stored time:
    [strptime] reads it. *)
Definition time_parses (other_digit : string -> option (nat * string))
    (t : string) : Prop :=
  exists h m, strptime_HM other_digit (PStr t) = inr (h, m).

Definition times_parse (other_digit : string -> option (nat * string))
    (s : server) : Prop :=
  time_parses other_digit (start_time (schedule_settings s))
  /\ time_parses other_digit (end_time (schedule_settings s)).

(** [strptime] reads the text [hhmm h m] as [h] and [m]. *)
Definition reads_back (other_digit : string -> option (nat * string))
    (h m : nat) : bool :=
  match strptime_HM other_digit (PStr (hhmm h m)) with
  | inr (h', m') => Nat.eqb h' h && Nat.eqb m' m
  | inl _ => false
  end.

(** The readings of the examples: the [i]-th has temperature [i], and
    is posted [i] minutes after the hour. *)
Definition example_reading (i : nat) : reading :=
  {| r_temperature := PInt (Z.of_nat i); r_humidity := PInt 50;
     r_hvac := None;
     r_time := {| year := 2026; month := 1; day := 9;
                  hour := i / 60; minute := i mod 60; second := 0 |} |}.

Definition example_readings (n : nat) : list reading :=
  map example_reading (seq 0 n).

(** ** The handlers that only read

    [get_current()], [get_hvac()], [get_hvac_command()] and
    [get_schedule()] answer [jsonify] of one of the dicts: the payload is
    the record, and the state is not touched. *)
Definition get_current (s : server) : LatestData := latest_data s.
Definition get_hvac (s : server) : HvacSettings := hvac_settings s.
Definition get_hvac_command (s : server) : HvacSettings := hvac_settings s.
Definition get_schedule (s : server) : ScheduleSettings := schedule_settings s.

(** The value under ['should_be_on'] in the answer of
    [get_schedule_status]: [None] for the JSON null of a disabled
    schedule. *)
Definition should_be_on (now : datetime) (s : server) : option bool :=
  match fst (fst (get_schedule_status now s)) with
  | ScheduleStatus b _ _ _ => Some b
  | _ => None
  end.

(** ** The server as a whole

    One request to one of the routes, with what the handler takes from
    its environment, and the state it leaves. *)
Inductive call :=
| PostData (req : option pyval) (now : datetime) (disk : write_outcome)
| GetCurrent
| GetHvac
| PostHvacUpdate (req : option pyval) (now : datetime)
| GetHvacCommand
| GetSchedule
| PostScheduleUpdate (req : option pyval) (now : datetime)
| GetScheduleStatus (now : datetime)
| GetHistory (read : read_outcome).

Definition serve (str_to_int : string -> option Z) (py_str : pyval -> string)
    (other_digit : string -> option (nat * string)) (c : call) (s : server)
    : server :=
  match c with
  | PostData req now disk => snd (receive_data py_str req now disk s)
  | PostHvacUpdate req now => snd (update_hvac str_to_int req now s)
  | PostScheduleUpdate req now => snd (update_schedule other_digit req now s)
  | GetScheduleStatus now => snd (get_schedule_status now s)
  | GetCurrent | GetHvac | GetHvacCommand | GetSchedule | GetHistory _ => s
  end.

Definition serve_all (str_to_int : string -> option Z)
    (py_str : pyval -> string) (other_digit : string -> option (nat * string))
    (cs : list call) (s : server) : server :=
  foldl (fun s c => serve str_to_int py_str other_digit c s) s cs.

(** The latest reading is all unset, or has its three fields. *)
Definition reading_complete (l : LatestData) : Prop :=
  (temperature l = PNone /\ humidity l = PNone /\ latest_timestamp l = None)
  \/ (temperature l <> PNone /\ humidity l <> PNone
      /\ latest_timestamp l <> None).

(** The record carries a timestamp exactly when it carries a source,
    and the source is one of the two origins. *)
Definition stamped (h : HvacSettings) : Prop :=
  (hvac_timestamp h = None /\ source h = None)
  \/ (hvac_timestamp h <> None
      /\ (source h = Some "arduino" \/ source h = Some "web")).

(** A request whose append, if it makes one, has a clean outcome. *)
Definition clean_call (c : call) : Prop :=
  match c with PostData _ _ disk => clean_write disk | _ => True end.

(** A request that is not a post of the device. *)
Definition not_from_device (c : call) : Prop :=
  match c with PostData _ _ _ => False | _ => True end.

(** The window of a schedule on the minutes of the day, as
    [get_schedule_status] decides it on the texts. *)
Definition in_window (start end_ t : nat) : bool :=
  if (end_ <? start)%nat
  then (start <=? t)%nat || (t <? end_)%nat
  else (start <=? t)%nat && (t <? end_)%nat.

(** * Properties *)

(** ** The order of formatted times

    [get_schedule_status] compares the three times as strs.  On the
    zero-padded texts that [strftime] produces, the order of strs is the
    order of the times. *)

Ltac step_handler :=
  cbv beta iota zeta delta
    [mbind mret handler_bind handler_ret try_ raise return_ store load when_
     get_json hvac_set csv_append merge_key run dict_get py_in py_getitem].

Lemma digit_char_compare (i j : nat) :
  (i < 10)%nat -> (j < 10)%nat ->
  Ascii.compare (digit_char i) (digit_char j) = Nat.compare i j.
Proof.
  intros Hi Hj. unfold Ascii.compare, digit_char, ascii_of_nat.
  rewrite !N_ascii_embedding by lia.
  rewrite <- Nat2N.inj_compare.
  destruct (Nat.compare_spec i j) as [E | L | G].
  - subst. apply Nat.compare_refl.
  - apply Nat.compare_lt_iff. lia.
  - apply Nat.compare_gt_iff. lia.
Qed.

(** Two-digit fields order as their numbers do. *)
Lemma pad2_compare (a b : nat) (s t : string) :
  (a < 100)%nat -> (b < 100)%nat ->
  String.compare (pad2 a ++ s) (pad2 b ++ t)
  = match Nat.compare a b with
    | Eq => String.compare s t
    | c => c
    end.
Proof.
  intros Ha Hb. unfold pad2. cbv [String.append]. cbn [String.compare].
  pose proof (Nat.div_mod_eq a 10) as Ea.
  pose proof (Nat.div_mod_eq b 10) as Eb.
  pose proof (Nat.mod_upper_bound a 10 ltac:(lia)) as Ua.
  pose proof (Nat.mod_upper_bound b 10 ltac:(lia)) as Ub.
  assert (a / 10 < 10)%nat as Qa by (apply Nat.Div0.div_lt_upper_bound; lia).
  assert (b / 10 < 10)%nat as Qb by (apply Nat.Div0.div_lt_upper_bound; lia).
  rewrite !digit_char_compare by assumption.
  revert Ea Eb Ua Ub Qa Qb.
  generalize (a / 10)%nat (a mod 10)%nat (b / 10)%nat (b mod 10)%nat.
  intros qa ra qb rb -> -> Ua Ub Qa Qb.
  destruct (Nat.compare_spec qa qb) as [E | L | G].
  - subst qb. destruct (Nat.compare_spec ra rb) as [E | L | G].
    + subst. now rewrite Nat.compare_refl.
    + symmetry. replace (10 * qa + ra ?= 10 * qa + rb)%nat with Lt; [reflexivity|].
      symmetry. apply Nat.compare_lt_iff. lia.
    + replace (10 * qa + ra ?= 10 * qa + rb)%nat with Gt; [reflexivity|].
      symmetry. apply Nat.compare_gt_iff. lia.
  - replace (10 * qa + ra ?= 10 * qb + rb)%nat with Lt; [reflexivity|].
    symmetry. apply Nat.compare_lt_iff. lia.
  - replace (10 * qa + ra ?= 10 * qb + rb)%nat with Gt; [reflexivity|].
    symmetry. apply Nat.compare_gt_iff. lia.
Qed.

Lemma hhmm_compare (h1 m1 h2 m2 : nat) :
  (h1 < 24)%nat -> (m1 < 60)%nat -> (h2 < 24)%nat -> (m2 < 60)%nat ->
  String.compare (hhmm h1 m1) (hhmm h2 m2)
  = Nat.compare (minute_of_day h1 m1) (minute_of_day h2 m2).
Proof.
  intros H1 M1 H2 M2. unfold hhmm, minute_of_day.
  rewrite pad2_compare by lia.
  change (":" ++ pad2 m1) with (String ":" (pad2 m1)).
  change (":" ++ pad2 m2) with (String ":" (pad2 m2)).
  cbn [String.compare].
  change (Ascii.compare ":" ":") with Eq. cbv iota.
  change (pad2 m1) with (pad2 m1 ++ "").
  change (pad2 m2) with (pad2 m2 ++ "").
  rewrite pad2_compare by lia. cbn [String.compare].
  destruct (Nat.compare_spec h1 h2) as [E | L | G].
  - subst h2. destruct (Nat.compare_spec m1 m2) as [E | L | G].
    + subst. now rewrite Nat.compare_refl.
    + symmetry. apply Nat.compare_lt_iff. lia.
    + symmetry. apply Nat.compare_gt_iff. lia.
  - symmetry. apply Nat.compare_lt_iff. lia.
  - symmetry. apply Nat.compare_gt_iff. lia.
Qed.

Lemma str_lt_hhmm (h1 m1 h2 m2 : nat) :
  (h1 < 24)%nat -> (m1 < 60)%nat -> (h2 < 24)%nat -> (m2 < 60)%nat ->
  str_lt (hhmm h1 m1) (hhmm h2 m2)
  = (minute_of_day h1 m1 <? minute_of_day h2 m2)%nat.
Proof.
  intros. unfold str_lt, String.ltb. rewrite hhmm_compare by assumption.
  destruct (Nat.compare_spec (minute_of_day h1 m1) (minute_of_day h2 m2));
    symmetry; [apply Nat.ltb_ge | apply Nat.ltb_lt | apply Nat.ltb_ge]; lia.
Qed.

Lemma str_le_hhmm (h1 m1 h2 m2 : nat) :
  (h1 < 24)%nat -> (m1 < 60)%nat -> (h2 < 24)%nat -> (m2 < 60)%nat ->
  str_le (hhmm h1 m1) (hhmm h2 m2)
  = (minute_of_day h1 m1 <=? minute_of_day h2 m2)%nat.
Proof.
  intros. unfold str_le, String.leb. rewrite hhmm_compare by assumption.
  destruct (Nat.compare_spec (minute_of_day h1 m1) (minute_of_day h2 m2));
    symmetry; [apply Nat.leb_le | apply Nat.leb_le | apply Nat.leb_gt]; lia.
Qed.

(** C4: for an enabled schedule whose start and end are the HH:MM texts
    of two times of day, and a clock reading [now], the status handler
    answers [should_be_on] as follows.  When start <= end (same-day
    window) it is on iff start <= now < end; when start > end (overnight
    window) it is on iff now >= start or now < end; when start = end the
    window is empty and it is never on.  The state is not changed. *)
Theorem schedule_status_window (s : server) (now : datetime)
    (sh sm eh em : nat) :
  (sh < 24)%nat -> (sm < 60)%nat -> (eh < 24)%nat -> (em < 60)%nat ->
  (hour now < 24)%nat -> (minute now < 60)%nat ->
  enabled (schedule_settings s) = true ->
  start_time (schedule_settings s) = hhmm sh sm ->
  end_time (schedule_settings s) = hhmm eh em ->
  let start := minute_of_day sh sm in
  let end_ := minute_of_day eh em in
  let t := minute_of_day (hour now) (minute now) in
  exists on : bool,
    get_schedule_status now s
    = ((ScheduleStatus on (hhmm (hour now) (minute now)) (hhmm sh sm)
          (hhmm eh em), 200%nat), s)
    /\ ((start <= end_)%nat -> (on = true <-> (start <= t /\ t < end_)%nat))
    /\ ((end_ < start)%nat -> (on = true <-> (start <= t \/ t < end_)%nat))
    /\ (start = end_ -> on = false).
Proof.
  intros Hsh Hsm Heh Hem Hh Hm En St Ed start end_ t.
  unfold get_schedule_status, get_schedule_status_body. step_handler.
  rewrite En, St, Ed. cbn [negb]. unfold strftime_HM, str_gt, str_ge.
  fold (str_lt (hhmm eh em) (hhmm sh sm)).
  fold (str_le (hhmm sh sm) (hhmm (hour now) (minute now))).
  rewrite !str_lt_hhmm, !str_le_hhmm by assumption.
  fold start end_ t.
  eexists. split; [reflexivity |].
  destruct (Nat.ltb_spec end_ start) as [L | G].
  - split; [lia |]. split; [| lia]. intros _. split.
    + intros On. apply orb_true_iff in On as [On | On];
        [apply Nat.leb_le in On | apply Nat.ltb_lt in On]; lia.
    + intros [On | On]; apply orb_true_iff;
        [left; apply Nat.leb_le | right; apply Nat.ltb_lt]; lia.
  - split; [| split; [lia |]].
    + intros _. split.
      * intros On. apply andb_true_iff in On as [On1 On2].
        apply Nat.leb_le in On1. apply Nat.ltb_lt in On2. lia.
      * intros [On1 On2]. apply andb_true_iff.
        split; [apply Nat.leb_le | apply Nat.ltb_lt]; lia.
    + intros E. apply andb_false_iff.
      destruct (Nat.leb_spec start t); [right; apply Nat.ltb_ge; lia | now left].
Qed.

Lemma schedule_status_window_witness :
  exists on : bool,
    get_schedule_status
      {| year := 2026; month := 1; day := 9; hour := 4; minute := 59; second := 7 |}
      (with_schedule_settings (set_enabled true) (initial_server None))
    = ((ScheduleStatus on "04:59" "23:00" "05:00", 200%nat),
       with_schedule_settings (set_enabled true) (initial_server None))
    /\ on = true.
Proof.
  destruct (schedule_status_window
              (with_schedule_settings (set_enabled true) (initial_server None))
              {| year := 2026; month := 1; day := 9;
                 hour := 4; minute := 59; second := 7 |}
              23 0 5 0) as (on & E & _ & Hnight & _);
    [cbn; lia .. | reflexivity | reflexivity | reflexivity |].
  exists on. split; [exact E |].
  apply Hnight; [cbv; lia | right; cbv; lia].
Defined.

(** ** Posting a reading *)

Lemma is_none_false (v : pyval) : v <> PNone -> is_none v = false.
Proof. destruct v; intros H; try reflexivity. now destruct H. Qed.

Lemma absent_is_none (d : gmap string pyval) (k : string) :
  absent d k -> is_none (default PNone (d !! k)) = true.
Proof. intros [H | H]; rewrite H; reflexivity. Qed.

Lemma run_receive_data_stores (hvac : gmap string pyval) (timestamp : string)
    (h : HvacSettings) :
  run_stores (receive_data_stores hvac timestamp) h
  = snapshot_record hvac timestamp.
Proof. reflexivity. Qed.

Section Ingest.

Variable py_str : pyval -> string.

(** What [receive_data] does with a body that has both required
    fields and, under ['hvac'], nothing or a dict. *)
Lemma receive_data_accepted (d : gmap string pyval) (t h : pyval)
    (now : datetime) (disk : write_outcome) (s : server) :
  d !! "temperature" = Some t -> t <> PNone ->
  d !! "humidity" = Some h -> h <> PNone ->
  (d !! "hvac" = None \/ exists hvac, d !! "hvac" = Some (PDict hvac)) ->
  receive_data py_str (Some (PDict d)) now disk s
  = (match append_raises disk with
     | Some e => (ErrorOf e, 500%nat)
     | None => (Ingested (strftime_full now), 200%nat)
     end,
     {| latest_data :=
          {| temperature := t; humidity := h;
             latest_timestamp := Some (strftime_full now) |};
        hvac_settings :=
          hvac_after_reading (d !! "hvac") (strftime_full now) (hvac_settings s);
        schedule_settings := schedule_settings s;
        data_file :=
          match disk with
          | Written =>
              append_row [strftime_full now; py_str t; py_str h] (data_file s)
          | NotWritten => data_file s
          | Disturbed _ after => Some after
          end |}).
Proof.
  intros Ht Nt Hh Nh Hv. unfold receive_data, receive_data_body.
  step_handler. rewrite Ht, Hh. cbn [from_option id].
  rewrite (is_none_false t Nt), (is_none_false h Nh). cbn [orb].
  destruct Hv as [Hv | [hvac Hv]]; rewrite Hv;
    destruct disk as [| | [e |] after]; reflexivity.
Qed.

(** C8: a posted reading whose body lacks the humidity or the
    temperature (the key is missing or null) is answered with the
    validation error, status 400, and nothing of the state changes:
    neither [latest_data] nor the CSV file. *)
Theorem missing_field_rejected (d : gmap string pyval) (now : datetime)
    (disk : write_outcome) (s : server) :
  absent d "humidity" \/ absent d "temperature" ->
  receive_data py_str (Some (PDict d)) now disk s
  = ((Error "Missing temperature or humidity", 400%nat), s).
Proof.
  intros H. unfold receive_data, receive_data_body. step_handler.
  assert (is_none (default PNone (d !! "temperature"))
          || is_none (default PNone (d !! "humidity")) = true) as ->.
  { destruct H as [H | H]; apply absent_is_none in H; rewrite H;
      auto using orb_true_r. }
  reflexivity.
Qed.

(** C10: when the append to the CSV file raises for a reading that
    passed validation, the caller gets the error response (status 500),
    but [latest_data] already holds the new reading and [hvac_settings]
    the snapshot that came with it; nothing is rolled back.  When it is
    the [open] that raises, the file is as before. *)
Theorem append_failure_keeps_latest (d : gmap string pyval) (t h : pyval)
    (now : datetime) (disk : write_outcome) (e : pyexn) (s : server) :
  d !! "temperature" = Some t -> t <> PNone ->
  d !! "humidity" = Some h -> h <> PNone ->
  (d !! "hvac" = None \/ exists hvac, d !! "hvac" = Some (PDict hvac)) ->
  append_raises disk = Some e ->
  let after := receive_data py_str (Some (PDict d)) now disk s in
  fst after = (ErrorOf e, 500%nat)
  /\ latest_data (snd after)
     = {| temperature := t; humidity := h;
          latest_timestamp := Some (strftime_full now) |}
  /\ (forall hvac, d !! "hvac" = Some (PDict hvac) ->
      hvac_settings (snd after) = snapshot_record hvac (strftime_full now))
  /\ (d !! "hvac" = None -> hvac_settings (snd after) = hvac_settings s)
  /\ (disk = NotWritten -> data_file (snd after) = data_file s)
  /\ schedule_settings (snd after) = schedule_settings s.
Proof.
  intros Ht Nt Hh Nh Hv Hr after. subst after.
  rewrite (receive_data_accepted d t h now disk s Ht Nt Hh Nh Hv), Hr.
  cbn [fst snd latest_data hvac_settings data_file schedule_settings].
  repeat split.
  - intros hvac E. rewrite E. reflexivity.
  - intros E. rewrite E. reflexivity.
  - intros ->. reflexivity.
Qed.

End Ingest.

Lemma missing_field_rejected_witness :
  receive_data cell_of (Some (PDict {[ "temperature" := PInt 25 ]}))
    example_time Written (initial_server None)
  = ((Error "Missing temperature or humidity", 400%nat), initial_server None).
Proof.
  apply (missing_field_rejected cell_of).
  left. left. reflexivity.
Defined.

Lemma append_failure_keeps_latest_witness :
  let d : gmap string pyval :=
    {[ "temperature" := PInt 25; "humidity" := PInt 50;
       "hvac" := PDict {[ "power" := PStr "on" ]} ]} in
  let after := receive_data cell_of (Some (PDict d)) example_time NotWritten
                 (initial_server None) in
  fst after = (ErrorOf OSError, 500%nat)
  /\ temperature (latest_data (snd after)) = PInt 25
  /\ power (hvac_settings (snd after)) = PStr "on"
  /\ data_file (snd after) = Some [csv_header].
Proof.
  intros d after.
  destruct (append_failure_keeps_latest cell_of d (PInt 25) (PInt 50)
              example_time NotWritten OSError (initial_server None))
    as (E & L & Hv & _ & F & _);
    [reflexivity | discriminate | reflexivity | discriminate
    | right; eexists; reflexivity | reflexivity |].
  fold after in E, L, Hv, F.
  split; [exact E |]. split; [rewrite L; reflexivity |].
  split; [rewrite (Hv _ eq_refl); reflexivity | rewrite (F eq_refl); reflexivity].
Defined.

(** ** Invariants of a handler body

    A body keeps an invariant when each of its statements does; a raise
    or a return in the middle leaves the state of the statements before
    it, which all kept the invariant. *)

Section Preserves.

Context {I : server -> Prop}.

Lemma preserves_ret {A} (a : A) : preserves I (mret a).
Proof. intros s H. exact H. Qed.

Lemma preserves_raise {A} (e : pyexn) : preserves I (@raise A e).
Proof. intros s H. exact H. Qed.

Lemma preserves_return {A} (r : response) : preserves I (@return_ A r).
Proof. intros s H. exact H. Qed.

Lemma preserves_load : preserves I load.
Proof. intros s H. exact H. Qed.

Lemma preserves_try {A} (r : pyexn + A) : preserves I (try_ r).
Proof. destruct r; [apply preserves_raise | apply preserves_ret]. Qed.

Lemma preserves_get_json (req : option pyval) : preserves I (get_json req).
Proof. destruct req; [apply preserves_ret | apply preserves_raise]. Qed.

Lemma preserves_store (f : server -> server) :
  (forall s, I s -> I (f s)) -> preserves I (store f).
Proof. intros Hf s H. apply Hf, H. Qed.

Lemma preserves_bind {A B} (c : handler A) (k : A -> handler B) :
  preserves I c -> (forall a, preserves I (k a)) -> preserves I (c ≫= k).
Proof.
  intros Hc Hk s H. unfold mbind, handler_bind.
  specialize (Hc s H). destruct (c s) as [[a | e | r] s']; cbn in *.
  - apply Hk, Hc.
  - exact Hc.
  - exact Hc.
Qed.

Lemma preserves_when (b : bool) (c : handler unit) :
  preserves I c -> preserves I (when_ b c).
Proof. intros Hc. destruct b; [exact Hc | apply preserves_ret]. Qed.

Lemma preserves_run (c : handler response) (s : server) :
  preserves I c -> I s -> I (snd (run c s)).
Proof.
  intros Hc H. unfold run. specialize (Hc s H).
  destruct (c s) as [[a | e | r] s']; exact Hc.
Qed.

End Preserves.

Ltac preserves_step :=
  first
    [ apply preserves_bind; [| intros ?]
    | apply preserves_when
    | apply preserves_try
    | apply preserves_get_json
    | apply preserves_ret
    | apply preserves_raise
    | apply preserves_return
    | apply preserves_load ].

(** ** Web commands *)

Section WebCommand.

Variable str_to_int : string -> option Z.

Lemma preserves_merge_key (I : server -> Prop) (key : string)
    (w : pyval -> hvac_write) (data : pyval) :
  (forall v s, I s -> I (with_hvac_settings (hvac_store (w v)) s)) ->
  preserves I (merge_key key w data).
Proof.
  intros Hw. unfold merge_key. repeat preserves_step.
  apply preserves_store. apply Hw.
Qed.

(** [update_hvac] stores a set point only after its range check: the
    web path keeps the range invariant, whatever the request. *)
Lemma update_hvac_keeps_range (req : option pyval) (now : datetime)
    (s : server) :
  set_temp_ok (hvac_settings s) ->
  set_temp_ok (hvac_settings (snd (update_hvac str_to_int req now s))).
Proof.
  intros H. unfold update_hvac.
  apply (preserves_run (I := fun s => set_temp_ok (hvac_settings s)));
    [| exact H].
  unfold update_hvac_body, hvac_set.
  repeat first
    [ preserves_step
    | apply preserves_merge_key; intros ? ? Hs; exact Hs
    | match goal with
      | |- preserves _ (if ?b then _ else _) => destruct b eqn:Range
      end ].
  all: apply preserves_store; intros s1 Hs; try exact Hs.
  apply andb_true_iff in Range as [Lo Hi]. right. eexists.
  split; [reflexivity | lia].
Qed.

(** On a dict body the handler performs the stores listed by
    [update_hvac_stores], and nothing else on [hvac_settings]. *)
Lemma update_hvac_runs_stores (d : gmap string pyval) (now : datetime)
    (s : server) :
  snd (update_hvac str_to_int (Some (PDict d)) now s)
  = with_hvac_settings
      (run_stores (update_hvac_stores str_to_int d (strftime_full now))) s.
Proof.
  unfold update_hvac, update_hvac_body, update_hvac_stores.
  step_handler. destruct s as [l h c f].
  destruct (d !! "power"), (d !! "set_temp") as [v |]; cbn;
    [ destruct (py_int str_to_int v) as [e | temp]; cbn;
      [| destruct ((16 <=? temp) && (temp <=? 30)); cbn ] |
    | destruct (py_int str_to_int v) as [e | temp]; cbn;
      [| destruct ((16 <=? temp) && (temp <=? 30)); cbn ] | ];
    try reflexivity;
    destruct (d !! "mode"), (d !! "fan_speed"), (d !! "timer"),
      (d !! "swing"); reflexivity.
Qed.

(** A set point out of range in a dict body: the answer is the
    validation error, and the state is the one before with the body's
    ['power'], when it has one, already stored. *)
Lemma update_hvac_rejected (d : gmap string pyval) (v : pyval) (temp : Z)
    (now : datetime) (s : server) :
  d !! "set_temp" = Some v -> py_int str_to_int v = inr temp ->
  ~ (16 <= temp <= 30) ->
  update_hvac str_to_int (Some (PDict d)) now s
  = ((Error "Temperature must be between 16°C and 30°C", 400%nat),
     with_hvac_settings
       (run_stores (store_if_present WPower (d !! "power"))) s).
Proof.
  intros Hv Hi Hr. unfold update_hvac, update_hvac_body.
  step_handler. rewrite Hv. destruct s as [l h c f].
  assert ((16 <=? temp) && (temp <=? 30) = false) as Range.
  { apply andb_false_iff.
    destruct (Z.leb_spec 16 temp); [right; apply Z.leb_gt; lia | now left]. }
  destruct (d !! "power"); cbn; rewrite Hi; cbn; rewrite Range; reflexivity.
Qed.

(** C2: sent to the server as it starts, the web command with power
    'on' and set point 31 is answered with the validation error, status
    400, yet its ['power'] has been stored: [hvac_settings] is not what
    it was before the request. *)
Theorem rejected_command_stores_power (now : datetime) :
  let s := initial_server None in
  let d : gmap string pyval :=
    {[ "power" := PStr "on"; "set_temp" := PInt 31 ]} in
  let after := update_hvac str_to_int (Some (PDict d)) now s in
  fst after = (Error "Temperature must be between 16°C and 30°C", 400%nat)
  /\ power (hvac_settings s) = PNone
  /\ power (hvac_settings (snd after)) = PStr "on"
  /\ snd after <> s.
Proof.
  intros s d after. subst after.
  rewrite (update_hvac_rejected d (PInt 31) 31 now s);
    [| reflexivity | reflexivity | lia].
  repeat split. discriminate.
Qed.

End WebCommand.

(** ** Device snapshots *)

Section Snapshot.

Variable py_str : pyval -> string.

(** A reading that passes validation and carries a dict under
    ['hvac'] leaves the record of its snapshot. *)
Lemma receive_data_with_snapshot (d hvac : gmap string pyval) (t h : pyval)
    (now : datetime) (disk : write_outcome) (s : server) :
  d !! "temperature" = Some t -> t <> PNone ->
  d !! "humidity" = Some h -> h <> PNone ->
  d !! "hvac" = Some (PDict hvac) ->
  hvac_settings (snd (receive_data py_str (Some (PDict d)) now disk s))
  = snapshot_record hvac (strftime_full now).
Proof.
  intros Ht Nt Hh Nh Hv.
  rewrite (receive_data_accepted py_str d t h now disk s Ht Nt Hh Nh)
    by (right; eauto).
  cbn [snd hvac_settings]. rewrite Hv. reflexivity.
Qed.

(** C3, as the code has it: a reading that passes validation and
    carries a dict under ['hvac'] replaces the whole record.  Each of
    the six setting fields becomes the snapshot's value, or [None] when
    the snapshot does not have the key; the timestamp is the reading's
    and the source is 'arduino'.  Nothing of the record before remains,
    whether or not the append to the file succeeds. *)
Theorem snapshot_replaces_record (d hvac : gmap string pyval) (t h : pyval)
    (now : datetime) (disk : write_outcome) (s : server) :
  d !! "temperature" = Some t -> t <> PNone ->
  d !! "humidity" = Some h -> h <> PNone ->
  d !! "hvac" = Some (PDict hvac) ->
  hvac_settings (snd (receive_data py_str (Some (PDict d)) now disk s))
  = {| power := default PNone (hvac !! "power");
       set_temp := default PNone (hvac !! "set_temp");
       mode := default PNone (hvac !! "mode");
       fan_speed := default PNone (hvac !! "fan_speed");
       timer := default PNone (hvac !! "timer");
       swing := default PNone (hvac !! "swing");
       hvac_timestamp := Some (strftime_full now);
       source := Some "arduino" |}.
Proof.
  intros Ht Nt Hh Nh Hv.
  exact (receive_data_with_snapshot d hvac t h now disk s Ht Nt Hh Nh Hv).
Qed.

(** C1: the device posts a reading whose snapshot has set point 99.
    The reading is accepted and 99 is stored: the record, which met the
    range invariant before, does not meet it after. *)
Theorem device_set_temp_unchecked (now : datetime) (disk : write_outcome) :
  let s := initial_server None in
  let d : gmap string pyval :=
    {[ "temperature" := PInt 25; "humidity" := PInt 50;
       "hvac" := PDict {[ "set_temp" := PInt 99 ]} ]} in
  let after := snd (receive_data py_str (Some (PDict d)) now disk s) in
  set_temp_ok (hvac_settings s)
  /\ set_temp (hvac_settings after) = PInt 99
  /\ ~ set_temp_ok (hvac_settings after).
Proof.
  intros s d after. subst after.
  rewrite (receive_data_with_snapshot d {[ "set_temp" := PInt 99 ]}
             (PInt 25) (PInt 50) now disk s)
    by (reflexivity || discriminate).
  split; [left; reflexivity |]. split; [reflexivity |].
  intros [E | (z & E & Hz)]; [discriminate |].
  vm_compute in E. injection E as <-. lia.
Qed.

End Snapshot.

Lemma snapshot_replaces_record_witness :
  hvac_settings
    (snd (receive_data cell_of
            (Some (PDict {[ "temperature" := PInt 25; "humidity" := PInt 50;
                            "hvac" := PDict {[ "power" := PStr "on" ]} ]}))
            example_time Written
            (with_hvac_settings (hvac_store (WMode (PStr "cool")))
               (initial_server None))))
  = {| power := PStr "on"; set_temp := PNone; mode := PNone;
       fan_speed := PNone; timer := PNone; swing := PNone;
       hvac_timestamp := Some "2026-01-09 03:04:59";
       source := Some "arduino" |}.
Proof.
  rewrite (snapshot_replaces_record cell_of _ {[ "power" := PStr "on" ]}
             (PInt 25) (PInt 50));
    [reflexivity | reflexivity | discriminate | reflexivity | discriminate
    | reflexivity].
Defined.

(** C3 as stated fails: the record has mode 'cool'; a reading arrives
    whose snapshot has only the key ['power']; after it the mode is
    [None], not 'cool'. *)
Lemma snapshot_resets_absent_mode :
  let hvac : gmap string pyval := {[ "power" := PStr "on" ]} in
  let d : gmap string pyval :=
    {[ "temperature" := PInt 25; "humidity" := PInt 50;
       "hvac" := PDict hvac ]} in
  let s := with_hvac_settings (hvac_store (WMode (PStr "cool")))
             (initial_server None) in
  let after := snd (receive_data cell_of (Some (PDict d)) example_time Written s) in
  hvac !! "mode" = None
  /\ mode (hvac_settings s) = PStr "cool"
  /\ mode (hvac_settings after) = PNone.
Proof. repeat split. Qed.

(** ** Accepted web commands, and two writers *)

Section TwoWriters.

Variable str_to_int : string -> option Z.
Variable py_str : pyval -> string.

(** An accepted web command merges the keys of its body and stamps
    the record. *)
Lemma update_hvac_accepted (d : gmap string pyval) (now : datetime)
    (s : server) :
  set_temp_accepted str_to_int d ->
  update_hvac str_to_int (Some (PDict d)) now s
  = (let h' := web_record str_to_int d (strftime_full now) (hvac_settings s) in
     ((HvacUpdated h', 200%nat), with_hvac_settings (fun _ => h') s)).
Proof.
  intros Acc. unfold update_hvac, update_hvac_body, web_record.
  step_handler. destruct s as [l h c f].
  destruct Acc as [E | (v & temp & E & Ei & Lo & Hi)]; rewrite E.
  - destruct (d !! "power"), (d !! "mode"), (d !! "fan_speed"),
      (d !! "timer"), (d !! "swing"); reflexivity.
  - assert ((16 <=? temp) && (temp <=? 30) = true) as Range
        by (apply andb_true_iff; split; apply Z.leb_le; lia).
    destruct (d !! "power"); cbn; rewrite Ei; cbn; rewrite Range;
      destruct (d !! "mode"), (d !! "fan_speed"), (d !! "timer"),
        (d !! "swing"); reflexivity.
Qed.

(** The stores of the two handlers, as lists: an accepted reading with
    a snapshot performs [receive_data_stores], a web command
    [update_hvac_stores]. *)
Lemma receive_data_runs_stores (d hvac : gmap string pyval) (t h : pyval)
    (now : datetime) (disk : write_outcome) (s : server) :
  d !! "temperature" = Some t -> t <> PNone ->
  d !! "humidity" = Some h -> h <> PNone ->
  d !! "hvac" = Some (PDict hvac) ->
  hvac_settings (snd (receive_data py_str (Some (PDict d)) now disk s))
  = run_stores (receive_data_stores hvac (strftime_full now)) (hvac_settings s).
Proof.
  intros Ht Nt Hh Nh Hv. rewrite run_receive_data_stores.
  exact (receive_data_with_snapshot py_str d hvac t h now disk s
           Ht Nt Hh Nh Hv).
Qed.

(** C5, as the code has it.  No lock is held around the stores into
    [hvac_settings]; what the code gives is the sequential case.  When
    a reading with a snapshot and an accepted web command are handled
    one after the other, the record after both is the complete write of
    the second on the result of the first, and its source and timestamp
    are those of the handler that ran last. *)
Theorem serial_writers_last_wins (dd hvac dw : gmap string pyval)
    (t h : pyval) (now_d now_w : datetime) (disk : write_outcome) (s : server) :
  dd !! "temperature" = Some t -> t <> PNone ->
  dd !! "humidity" = Some h -> h <> PNone ->
  dd !! "hvac" = Some (PDict hvac) ->
  set_temp_accepted str_to_int dw ->
  let device := receive_data py_str (Some (PDict dd)) now_d disk in
  let web := update_hvac str_to_int (Some (PDict dw)) now_w in
  let device_web := hvac_settings (snd (web (snd (device s)))) in
  let web_device := hvac_settings (snd (device (snd (web s)))) in
  device_web
  = web_record str_to_int dw (strftime_full now_w)
      (snapshot_record hvac (strftime_full now_d))
  /\ source device_web = Some "web"
  /\ hvac_timestamp device_web = Some (strftime_full now_w)
  /\ web_device = snapshot_record hvac (strftime_full now_d)
  /\ source web_device = Some "arduino"
  /\ hvac_timestamp web_device = Some (strftime_full now_d).
Proof.
  intros Ht Nt Hh Nh Hv Acc device web device_web web_device.
  assert (device_web
          = web_record str_to_int dw (strftime_full now_w)
              (snapshot_record hvac (strftime_full now_d))) as E1.
  { subst device_web web device.
    rewrite (update_hvac_accepted dw now_w _ Acc). cbn [snd hvac_settings with_hvac_settings].
    rewrite (receive_data_with_snapshot py_str dd hvac t h now_d disk s)
      by assumption.
    reflexivity. }
  assert (web_device = snapshot_record hvac (strftime_full now_d)) as E2.
  { subst web_device device.
    rewrite (receive_data_with_snapshot py_str dd hvac t h now_d disk _)
      by assumption.
    reflexivity. }
  rewrite E1, E2. repeat split.
Qed.

End TwoWriters.

Lemma serial_writers_last_wins_witness :
  let dd : gmap string pyval :=
    {[ "temperature" := PInt 25; "humidity" := PInt 50;
       "hvac" := PDict example_snapshot ]} in
  let later : datetime :=
    {| year := 2026; month := 1; day := 9; hour := 3; minute := 5; second := 2 |} in
  let device := receive_data cell_of (Some (PDict dd)) example_time Written in
  let web := update_hvac int_of_digits (Some (PDict example_command)) later in
  source (hvac_settings (snd (web (snd (device (initial_server None))))))
  = Some "web"
  /\ hvac_timestamp (hvac_settings (snd (web (snd (device (initial_server None))))))
     = Some "2026-01-09 03:05:02".
Proof.
  intros dd later device web.
  destruct (serial_writers_last_wins int_of_digits cell_of dd example_snapshot
              example_command (PInt 25) (PInt 50) example_time later Written
              (initial_server None))
    as (_ & So & Ts & _);
    [reflexivity | discriminate | reflexivity | discriminate | reflexivity
    | right; exists (PInt 24), 24; repeat split; lia |].
  split; [exact So | exact Ts].
Defined.

(** C5 as stated fails.  The device posts a reading with a snapshot
    while the web posts a command; each handler's stores are taken in
    its program order, but the command's are spread around the
    snapshot's.  The record left has the power of the snapshot and the
    set point of the command, the timestamp of the reading and the
    source 'web': it is the outcome of neither order of the two
    handlers. *)
Lemma concurrent_writers_mix_fields :
  let device := receive_data_stores example_snapshot "2026-01-09 03:04:59" in
  let web := update_hvac_stores int_of_digits example_command
               "2026-01-09 03:05:02" in
  let h := initial_hvac_settings in
  exists l : list hvac_write,
    interleaving device web l
    /\ ~ serial_outcome device web h (run_stores l h)
    /\ power (run_stores l h) = PStr "off"
    /\ set_temp (run_stores l h) = PInt 24
    /\ hvac_timestamp (run_stores l h) = Some "2026-01-09 03:04:59"
    /\ source (run_stores l h) = Some "web".
Proof.
  intros device web h.
  exists [ WPower (PStr "on");
           WPower (PStr "off"); WSetTemp (PInt 22); WMode (PStr "cool");
           WFanSpeed (PStr "low"); WTimer (PInt 0); WSwing (PStr "off");
           WSetTemp (PInt 24); WTimestamp "2026-01-09 03:05:02";
           WTimestamp "2026-01-09 03:04:59"; WSource "arduino";
           WSource "web" ].
  split.
  - vm_compute.
    apply interleaving_right.
    do 6 apply interleaving_left.
    do 2 apply interleaving_right.
    do 2 apply interleaving_left.
    apply interleaving_right. apply interleaving_nil.
  - split; [| repeat split].
    intros [E | E].
    + apply (f_equal power) in E. vm_compute in E. discriminate.
    + apply (f_equal set_temp) in E. vm_compute in E. discriminate.
Qed.

(** ** The schedule *)

(** A disabled schedule is not evaluated. *)
Lemma schedule_status_disabled (now : datetime) (s : server) :
  enabled (schedule_settings s) = false ->
  get_schedule_status now s = ((ScheduleDisabled, 200%nat), s).
Proof.
  intros E. unfold get_schedule_status, get_schedule_status_body.
  step_handler. rewrite E. reflexivity.
Qed.

Lemma str_gt_not_le (a b : string) : str_gt a b = negb (str_le a b).
Proof.
  unfold str_gt, str_le, String.ltb, String.leb.
  rewrite (String.compare_antisym a b).
  destruct (String.compare b a); reflexivity.
Qed.

Lemma str_compare_refl (a : string) : String.compare a a = Eq.
Proof.
  pose proof (String.compare_antisym a a) as H.
  destruct (String.compare a a); [reflexivity | discriminate | discriminate].
Qed.

Lemma str_lt_irrefl_le (a b : string) : str_le a b && str_lt b a = false.
Proof.
  change (str_lt b a) with (str_gt a b).
  rewrite str_gt_not_le. apply andb_negb_r.
Qed.

(** On any two stored texts the handler decides by the order of strs:
    the same-day rule when [start <= end], the overnight rule when
    [start > end]; equal texts make a window that is never on. *)
Lemma schedule_status_by_str_order (now : datetime) (s : server) :
  enabled (schedule_settings s) = true ->
  let start := start_time (schedule_settings s) in
  let end_ := end_time (schedule_settings s) in
  let current_time := strftime_HM now in
  exists on : bool,
    get_schedule_status now s
    = ((ScheduleStatus on current_time start end_, 200%nat), s)
    /\ (str_le start end_ = true ->
        on = str_le start current_time && str_lt current_time end_)
    /\ (str_gt start end_ = true ->
        on = str_ge current_time start || str_lt current_time end_)
    /\ (start = end_ -> on = false).
Proof.
  intros En start end_ current_time.
  unfold get_schedule_status, get_schedule_status_body. step_handler.
  rewrite En. cbn [negb]. fold start end_ current_time.
  eexists. split; [reflexivity |].
  rewrite str_gt_not_le.
  destruct (str_le start end_) eqn:Le; cbn [negb].
  - split; [reflexivity |]. split; [discriminate |].
    intros <-. apply str_lt_irrefl_le.
  - split; [discriminate |]. split; [reflexivity |].
    intros E. rewrite <- E in Le. unfold str_le, String.leb in Le.
    rewrite str_compare_refl in Le. discriminate.
Qed.

(** The windows of the specification's examples. *)
Example same_day_window_examples :
  let s := with_schedule_settings
             (fun c => set_end_time "20:00" (set_start_time "08:00" (set_enabled true c)))
             (initial_server None) in
  let at_ (h m : nat) : datetime :=
    {| year := 2026; month := 1; day := 9; hour := h; minute := m; second := 0 |} in
  fst (get_schedule_status (at_ 12%nat 0%nat) s)
  = (ScheduleStatus true "12:00" "08:00" "20:00", 200%nat)
  /\ fst (get_schedule_status (at_ 21%nat 0%nat) s)
     = (ScheduleStatus false "21:00" "08:00" "20:00", 200%nat).
Proof. split; reflexivity. Qed.

Example overnight_window_examples :
  let s := with_schedule_settings (set_enabled true) (initial_server None) in
  let at_ (h m : nat) : datetime :=
    {| year := 2026; month := 1; day := 9; hour := h; minute := m; second := 0 |} in
  let on (t : datetime) :=
    match fst (fst (get_schedule_status t s)) with
    | ScheduleStatus b _ _ _ => Some b
    | _ => None
    end in
  on (at_ 23%nat 30%nat) = Some true /\ on (at_ 4%nat 59%nat) = Some true
  /\ on (at_ 5%nat 0%nat) = Some false /\ on (at_ 12%nat 0%nat) = Some false.
Proof. repeat split. Qed.


Lemma digit_char_val (c : ascii) :
  is_digit c = true -> digit_char (digit_val c) = c /\ (digit_val c < 10)%nat.
Proof.
  unfold is_digit, digit_char, digit_val. intros H.
  apply andb_true_iff in H as [Lo Hi].
  apply Nat.leb_le in Lo, Hi.
  split; [| lia].
  replace (48 + (nat_of_ascii c - 48))%nat with (nat_of_ascii c) by lia.
  apply ascii_nat_embedding.
Qed.

Lemma pad2_digits (c1 c2 : ascii) :
  is_digit c1 = true -> is_digit c2 = true ->
  pad2 (10 * digit_val c1 + digit_val c2)
  = String c1 (String c2 EmptyString).
Proof.
  intros H1 H2.
  destruct (digit_char_val c1 H1) as [E1 L1].
  destruct (digit_char_val c2 H2) as [E2 L2].
  unfold pad2.
  replace ((10 * digit_val c1 + digit_val c2) / 10)%nat with (digit_val c1).
  - replace ((10 * digit_val c1 + digit_val c2) mod 10)%nat with (digit_val c2).
    + rewrite E1, E2. reflexivity.
    + rewrite Nat.add_comm, Nat.mul_comm, Nat.Div0.mod_add.
      symmetry. apply Nat.mod_small. exact L2.
  - rewrite Nat.add_comm, Nat.mul_comm, Nat.div_add by lia.
    rewrite Nat.div_small by exact L2. reflexivity.
Qed.

(** The strict HH:MM strings are the texts of the times of day. *)
Lemma valid_HHMM_hhmm (s : string) :
  valid_HHMM s = true ->
  exists h m, (h < 24)%nat /\ (m < 60)%nat /\ s = hhmm h m.
Proof.
  intros H.
  destruct s as [| h1 [| h2 [| c [| m1 [| m2 [| x s]]]]]];
    try discriminate H;
    destruct c as [[] [] [] [] [] [] [] []]; try discriminate H.
  cbn [valid_HHMM] in H.
  apply andb_true_iff in H as [H Hm].
  apply andb_true_iff in H as [H Hh].
  apply andb_true_iff in H as [H D4].
  apply andb_true_iff in H as [H D3].
  apply andb_true_iff in H as [D1 D2].
  exists (10 * digit_val h1 + digit_val h2)%nat,
         (10 * digit_val m1 + digit_val m2)%nat.
  split; [apply Nat.ltb_lt; exact Hh |].
  split; [apply Nat.ltb_lt; exact Hm |].
  unfold hhmm. rewrite !pad2_digits by assumption. reflexivity.
Qed.

Section ScheduleCheck.

Variable other_digit : string -> option (nat * string).

(** Every HH:MM text passes the check of [update_schedule], whatever
    the digits outside ASCII are. *)
Lemma strptime_hhmm (h m : nat) :
  (h < 24)%nat -> (m < 60)%nat ->
  strptime_HM other_digit (PStr (hhmm h m)) = inr (h, m).
Proof.
  intros Hh Hm.
  assert (forallb (fun h => forallb (reads_back other_digit h) (seq 0 60))
            (seq 0 24) = true)
    as All by (vm_compute; reflexivity).
  rewrite forallb_forall in All.
  specialize (All h ltac:(apply in_seq; lia)).
  rewrite forallb_forall in All.
  specialize (All m ltac:(apply in_seq; lia)).
  unfold reads_back in All.
  destruct (strptime_HM other_digit (PStr (hhmm h m))) as [e | [h' m']];
    [discriminate |].
  apply andb_true_iff in All as [E1 E2].
  apply Nat.eqb_eq in E1, E2. now subst.
Qed.

(** A time is stored only after [strptime] has read it. *)
Lemma preserves_store_time (setter : string -> ScheduleSettings -> ScheduleSettings)
    (msg : string) (v : pyval) :
  (forall t s, time_parses other_digit t -> times_parse other_digit s ->
               times_parse other_digit (with_schedule_settings (setter t) s)) ->
  preserves (times_parse other_digit) (store_time other_digit setter msg v).
Proof.
  intros Hs. unfold store_time.
  destruct (strptime_HM other_digit v) as [e | [h m]] eqn:E.
  - destruct e; first [apply preserves_return | apply preserves_raise].
  - destruct v; try apply preserves_raise.
    apply preserves_store. intros s0 H0. apply Hs; [| exact H0].
    exists h, m. exact E.
Qed.

(** The times that [update_schedule] leaves are read by [strptime],
    whatever the request and however the handler ends. *)
Lemma update_schedule_times_parse (req : option pyval) (now : datetime)
    (s : server) :
  times_parse other_digit s ->
  times_parse other_digit (snd (update_schedule other_digit req now s)).
Proof.
  intros H. unfold update_schedule.
  apply (preserves_run (I := times_parse other_digit)); [| exact H].
  unfold update_schedule_body.
  repeat first
    [ preserves_step
    | apply preserves_store_time; intros t s0 Ht [H1 H2]; split; assumption
    | apply preserves_store; intros s0 Hs; exact Hs ].
Qed.

Lemma initial_times_parse (f : option (list csv_row)) :
  times_parse other_digit (initial_server f).
Proof. split; [exists 23%nat, 0%nat | exists 5%nat, 0%nat]; reflexivity. Qed.

(** C6: the schedule update with start time '9:00' succeeds, status
    200, and stores the text '9:00', which is not an HH:MM string: the
    check by [strptime] takes a single digit for ['%H'] and for ['%M']. *)
Theorem unpadded_time_stored (now : datetime) (s : server) :
  let d : gmap string pyval := {[ "start_time" := PStr "9:00" ]} in
  let after := update_schedule other_digit (Some (PDict d)) now s in
  snd (fst after) = 200%nat
  /\ start_time (schedule_settings (snd after)) = "9:00"
  /\ valid_HHMM "9:00" = false.
Proof. intros d after. repeat split. Qed.

End ScheduleCheck.

(** What an unpadded time does to the evaluation: with the window
    '9:00' to '17:00' the order of strs puts the start after the end, the
    window is taken for an overnight one, and at 08:00 the unit is to be
    on. *)
Example unpadded_start_breaks_window :
  let d : gmap string pyval :=
    {[ "enabled" := PBool true; "start_time" := PStr "9:00";
       "end_time" := PStr "17:00" ]} in
  let s := snd (update_schedule no_other_digit (Some (PDict d)) example_time
                  (initial_server None)) in
  let at_8 : datetime :=
    {| year := 2026; month := 1; day := 9; hour := 8; minute := 0; second := 0 |} in
  fst (get_schedule_status at_8 s)
  = (ScheduleStatus true "08:00" "9:00" "17:00", 200%nat).
Proof. reflexivity. Qed.

(** The check takes the digits of other scripts as well: with the
    Arabic-Indic digits among them, the text of nine, a colon and zero in
    those digits is stored with status 200. *)
Example other_digits_stored :
  let t : string :=
    String "217" (String "169" (String ":" (String "217" (String "160" "")))) in
  let d : gmap string pyval := {[ "start_time" := PStr t ]} in
  let after := update_schedule arabic_indic_digit (Some (PDict d)) example_time
                 (initial_server None) in
  snd (fst after) = 200%nat
  /\ start_time (schedule_settings (snd after)) = t
  /\ strptime_HM arabic_indic_digit (PStr t) = inr (9%nat, 0%nat).
Proof. repeat split. Qed.

(** ** The history *)

Local Open Scope list_scope.

Lemma last_n_all {A} (n : nat) (l : list A) :
  (List.length l <= n)%nat -> last_n n l = l.
Proof.
  intros H. unfold last_n.
  replace (List.length l - n)%nat with 0%nat by lia. reflexivity.
Qed.

Lemma last_n_app {A} (n : nat) (l1 l2 : list A) :
  (n <= List.length l2)%nat -> last_n n (l1 ++ l2) = last_n n l2.
Proof.
  intros H. unfold last_n. rewrite length_app, skipn_app.
  replace (List.length l1 + List.length l2 - n - List.length l1)%nat
    with (List.length l2 - n)%nat by lia.
  rewrite skipn_all2 by lia. reflexivity.
Qed.

Lemma length_last_n {A} (n : nat) (l : list A) :
  (List.length (last_n n l) <= n)%nat.
Proof. unfold last_n. rewrite length_skipn. lia. Qed.

(** [l[-n:][::-1]] is the first [n] of the reversed list. *)
Lemma rev_last_n {A} (n : nat) (l : list A) :
  rev (last_n n l) = firstn n (rev l).
Proof. unfold last_n. symmetry. apply firstn_rev. Qed.

(** The keys that [row_dict] makes of the header are names: the key
    [None] is there only for a row with more cells than the header. *)
Lemma foldl_insert_cells_None (kvs : list (string * string))
    (m : gmap (option string) csv_value) :
  foldl (fun m kv => <[Some (fst kv) := Cell (snd kv)]> m) m kvs !! None
  = m !! None.
Proof.
  revert m. induction kvs as [| kv kvs IH]; intros m; cbn [foldl];
    [reflexivity |].
  rewrite IH. apply lookup_insert_ne. discriminate.
Qed.

Lemma foldl_insert_nocell_None (ks : list string)
    (m : gmap (option string) csv_value) :
  foldl (fun m key => <[Some key := NoCell]> m) m ks !! None = m !! None.
Proof.
  revert m. induction ks as [| k ks IH]; intros m; cbn [foldl];
    [reflexivity |].
  rewrite IH. apply lookup_insert_ne. discriminate.
Qed.

Lemma row_dict_sortable (fieldnames row : csv_row) :
  (List.length row <= List.length fieldnames)%nat ->
  sortable_keys (row_dict fieldnames row) = true.
Proof.
  intros H. unfold sortable_keys, row_dict.
  replace (List.length fieldnames <? List.length row)%nat with false
    by (symmetry; apply Nat.ltb_ge; exact H).
  rewrite foldl_insert_nocell_None, foldl_insert_cells_None.
  reflexivity.
Qed.

Lemma dict_reader_sortable (fieldnames : csv_row) (rest : list csv_row) :
  Forall (fun row => (List.length row <= List.length fieldnames)%nat) rest ->
  forallb sortable_keys (dict_reader (fieldnames :: rest)) = true.
Proof.
  intros H. apply forallb_forall. intros e He. unfold dict_reader in He.
  apply in_map_iff in He as (row & <- & Hrow).
  apply List.filter_In in Hrow as [Hrow _].
  apply row_dict_sortable.
  rewrite List.Forall_forall in H. apply H, Hrow.
Qed.

Lemma forallb_rev_last_n {A} (f : A -> bool) (n : nat) (l : list A) :
  forallb f l = true -> forallb f (rev (last_n n l)) = true.
Proof.
  intros H. rewrite forallb_forall in H. apply forallb_forall.
  intros x Hx. apply H. apply in_rev in Hx. unfold last_n in Hx.
  rewrite <- (firstn_skipn (List.length l - n) l).
  apply in_or_app. right. exact Hx.
Qed.

Section History.

Variable py_str : pyval -> string.

(** The row of a reading as it is read back, and its entry. *)
Lemma row_dict_reading (r : reading) :
  row_dict csv_header (map universal_newlines (reading_row py_str r))
  = history_entry py_str r.
Proof. reflexivity. Qed.

Lemma history_entry_sortable (r : reading) :
  sortable_keys (history_entry py_str r) = true.
Proof. reflexivity. Qed.

Lemma receive_reading (r : reading) (s : server) :
  reading_ok r ->
  data_file (snd (receive_data py_str (Some (reading_body r)) (r_time r) Written s))
  = append_row (reading_row py_str r) (data_file s).
Proof.
  intros [Nt Nh]. unfold reading_body.
  rewrite (receive_data_accepted py_str _ (r_temperature r) (r_humidity r)).
  - reflexivity.
  - destruct (r_hvac r); reflexivity.
  - exact Nt.
  - destruct (r_hvac r); reflexivity.
  - exact Nh.
  - destruct (r_hvac r) as [hv |]; [right; exists hv | left]; reflexivity.
Qed.

(** Every accepted reading adds its row at the end of the file. *)
Lemma ingest_all_file (rs : list reading) (s : server) (rows : list csv_row) :
  Forall reading_ok rs ->
  data_file s = Some rows ->
  data_file (ingest_all py_str rs s)
  = Some (rows ++ map (fun r => map universal_newlines (reading_row py_str r)) rs).
Proof.
  intros Hrs. revert s rows.
  induction Hrs as [| r rs Hr _ IH]; intros s rows Hf.
  - cbn. rewrite app_nil_r. exact Hf.
  - cbn [ingest_all foldl map].
    change (foldl _ ?s0 rs) with (ingest_all py_str rs s0).
    rewrite (IH _ (rows ++ [map universal_newlines (reading_row py_str r)])).
    + rewrite <- app_assoc. reflexivity.
    + rewrite (receive_reading r s Hr), Hf. reflexivity.
Qed.

Lemma dict_reader_app (old : list csv_row) (rs : list reading) :
  dict_reader
    (csv_header
     :: old ++ map (fun r => map universal_newlines (reading_row py_str r)) rs)
  = dict_reader (csv_header :: old) ++ map (history_entry py_str) rs.
Proof.
  unfold dict_reader. rewrite List.filter_app, map_app. f_equal.
  induction rs as [| r rs IH]; [reflexivity |].
  cbn [map]. unfold reading_row at 1. cbn [map List.filter is_blank negb].
  rewrite <- IH. reflexivity.
Qed.

(** C7: the file has the header row of [init_csv] and rows [old] of at
    most three cells; the device then posts the readings [rs], each with
    both fields, and every append goes through.  The history, when the
    file is read, is answered 200 with at most 50 entries, the latest
    rows of the file with the newest first.  When 50 readings or more
    were posted (120, say) these are exactly the last 50 posted, newest
    first; when the file had only its header and at most 50 were posted
    (3, say) they are all of them, newest first.  The entry of a posted
    reading names its timestamp, temperature and humidity. *)
Theorem history_recent_50 (s : server) (old : list csv_row)
    (rs : list reading) :
  data_file s = Some (csv_header :: old) ->
  Forall (fun row => (List.length row <= 3)%nat) old ->
  Forall reading_ok rs ->
  exists hist,
    get_history ReadDone (ingest_all py_str rs s)
    = Responded (History hist, 200%nat)
    /\ (List.length hist <= 50)%nat
    /\ hist = firstn 50 (rev (dict_reader (csv_header :: old)
                              ++ map (history_entry py_str) rs))
    /\ ((50 <= List.length rs)%nat ->
        hist = map (history_entry py_str) (rev (last_n 50 rs)))
    /\ (old = [] -> (List.length rs <= 50)%nat ->
        hist = map (history_entry py_str) (rev rs)).
Proof.
  intros Hf Hold Hrs. unfold get_history.
  rewrite (ingest_all_file rs s _ Hrs Hf).
  change ((csv_header :: old) ++ ?l) with (csv_header :: old ++ l).
  rewrite dict_reader_app.
  assert (forallb sortable_keys
            (rev (last_n 50 (dict_reader (csv_header :: old)
                             ++ map (history_entry py_str) rs))) = true) as ->.
  { apply forallb_rev_last_n. rewrite forallb_app.
    rewrite (dict_reader_sortable csv_header old Hold). cbn [andb].
    apply forallb_forall. intros e He.
    apply in_map_iff in He as (r & <- & _). apply history_entry_sortable. }
  eexists. split; [reflexivity |].
  split; [rewrite length_rev; apply length_last_n |].
  split; [apply rev_last_n |].
  split.
  - intros Hn. rewrite last_n_app by (rewrite length_map; exact Hn).
    rewrite map_rev. f_equal.
    unfold last_n. rewrite length_map, skipn_map. reflexivity.
  - intros -> Hn. cbn [dict_reader List.filter map app].
    rewrite last_n_all by (rewrite length_map; exact Hn).
    rewrite map_rev. reflexivity.
Qed.

End History.

Lemma history_recent_50_witness :
  get_history ReadDone (ingest_all cell_of (example_readings 120) (initial_server None))
  = Responded
      (History (map (history_entry cell_of)
                  (rev (map example_reading (seq 70 50)))), 200%nat)
  /\ get_history ReadDone (ingest_all cell_of (example_readings 3) (initial_server None))
     = Responded
         (History (map (history_entry cell_of)
                     [example_reading 2; example_reading 1; example_reading 0]),
          200%nat).
Proof.
  assert (forall n, Forall reading_ok (example_readings n)) as Ok.
  { intros n. apply List.Forall_forall. intros r Hr.
    apply in_map_iff in Hr as (i & <- & _). split; discriminate. }
  split.
  - destruct (history_recent_50 cell_of (initial_server None) []
                (example_readings 120) eq_refl (List.Forall_nil _) (Ok 120%nat))
      as (hist & E & _ & _ & H120 & _).
    rewrite E, H120 by (vm_compute; lia). reflexivity.
  - destruct (history_recent_50 cell_of (initial_server None) []
                (example_readings 3) eq_refl (List.Forall_nil _) (Ok 3%nat))
      as (hist & E & _ & _ & _ & H3).
    rewrite E, H3 by (reflexivity || (vm_compute; lia)). reflexivity.
Defined.

(** The entry of a reading, cell by cell: what the history shows for
    the first reading of the examples. *)
Example history_entry_example :
  history_entry cell_of (example_reading 0) !! Some "Timestamp"
  = Some (Cell "2026-01-09 00:00:00")
  /\ history_entry cell_of (example_reading 0) !! Some "Temperature"
     = Some (Cell "0")
  /\ history_entry cell_of (example_reading 0) !! Some "Humidity"
     = Some (Cell "50")
  /\ size (history_entry cell_of (example_reading 0)) = 3%nat.
Proof. repeat split. Qed.

(** A row with more cells than the header has no entry that [jsonify]
    can write: the history is not answered, the [TypeError] leaves the
    handler. *)
Example history_long_row_fails :
  get_history ReadDone
    (with_data_file (fun _ => Some [csv_header; ["t"; "25"; "50"; "x"]])
       (initial_server None))
  = Unhandled TypeError.
Proof. reflexivity. Qed.

(** C9, as the code has it: [get_history] guards the read with
    [os.path.exists] only.  When the file does not exist the history is
    the empty list, status 200; when the file exists and cannot be read,
    the exception of the read, such as the [OSError] of [open], is not
    caught and leaves the handler, so the request fails. *)
Theorem history_empty_only_without_file (read : read_outcome) (s : server) :
  (data_file s = None ->
   get_history read s = Responded (History [], 200%nat))
  /\ (forall e, data_file s <> None -> read = ReadRaises e ->
      get_history read s = Unhandled e).
Proof.
  unfold get_history. split.
  - intros ->. reflexivity.
  - intros e Hf ->. destruct (data_file s); [reflexivity | now destruct Hf].
Qed.

Lemma history_empty_only_without_file_witness :
  get_history ReadDone
    {| latest_data := initial_latest_data;
       hvac_settings := initial_hvac_settings;
       schedule_settings := initial_schedule_settings;
       data_file := None |}
  = Responded (History [], 200%nat)
  /\ get_history (ReadRaises OSError) (initial_server None) = Unhandled OSError.
Proof.
  split.
  - apply (history_empty_only_without_file ReadDone). reflexivity.
  - apply (history_empty_only_without_file (ReadRaises OSError));
      [discriminate | reflexivity].
Defined.

(** C9 as stated fails: the file is there, with its header, and cannot
    be read; the history request is not answered with an empty list, the
    error leaves the handler. *)
Lemma history_read_error_not_empty :
  get_history (ReadRaises OSError) (initial_server None) = Unhandled OSError
  /\ get_history (ReadRaises OSError) (initial_server None)
     <> Responded (History [], 200%nat).
Proof. split; [reflexivity | discriminate]. Qed.

(** * Further properties of the handlers *)

(** ** What a handler can answer

    For each writing handler, every request is followed through the
    body: what the answer's status tells about the state left. *)

Lemma is_none_false_inv (v : pyval) : is_none v = false -> v <> PNone.
Proof. intros H ->. discriminate. Qed.

Ltac facts :=
  cbn; repeat split; intros;
  first [ reflexivity | discriminate | contradiction | assumption
        | left; reflexivity | right; left; reflexivity
        | right; right; reflexivity
        | right; eexists; reflexivity
        | right; repeat split; first [assumption | reflexivity]
        | idtac ].

Ltac step_handler_in H :=
  cbv beta iota zeta delta
    [mbind mret handler_bind handler_ret try_ raise return_ store load when_
     get_json hvac_set csv_append merge_key run dict_get py_in py_getitem
     store_time] in H.

Section ReceiveFacts.
Variable py_str : pyval -> string.

Lemma receive_data_facts (req : option pyval) (now : datetime)
    (disk : write_outcome) (s : server) (out : response * server) :
  out = receive_data py_str req now disk s ->
  let ts := strftime_full now in
  let l' := latest_data (snd out) in
  schedule_settings (snd out) = schedule_settings s
  /\ (snd (fst out) = 200 \/ snd (fst out) = 400 \/ snd (fst out) = 500)%nat
  /\ (snd (fst out) = 400%nat -> snd out = s)
  /\ (snd (fst out) = 200%nat ->
      fst (fst out) = Ingested ts
      /\ temperature l' <> PNone /\ humidity l' <> PNone
      /\ latest_timestamp l' = Some ts
      /\ append_raises disk = None
      /\ (disk = Written ->
          data_file (snd out)
          = append_row [ts; py_str (temperature l'); py_str (humidity l')]
              (data_file s)))
  /\ (snd (fst out) <> 200%nat -> clean_write disk ->
      data_file (snd out) = data_file s)
  /\ (hvac_settings (snd out) = hvac_settings s
      \/ exists hvac, hvac_settings (snd out) = snapshot_record hvac ts)
  /\ (l' = latest_data s
      \/ (temperature l' <> PNone /\ humidity l' <> PNone
          /\ latest_timestamp l' = Some ts)).
Proof.
  intros E. unfold receive_data, receive_data_body in E.
  destruct req as [data |]; [destruct data as [| | | | | | d] |];
    step_handler_in E; try (subst out; facts; fail).
  destruct (is_none (default PNone (d !! "temperature"))) eqn:Nt;
    [subst out; facts; fail |].
  destruct (is_none (default PNone (d !! "humidity"))) eqn:Nh;
    [subst out; facts; fail |].
  apply is_none_false_inv in Nt, Nh. cbn [orb] in E.
  destruct (d !! "hvac") as [hv |]; cbn in E;
    [destruct hv |]; destruct disk as [| | [e |] after]; cbn in E; subst out;
    facts;
    match goal with
    | H : clean_write _ |- _ => destruct H; discriminate
    end.
Qed.

End ReceiveFacts.
Section UpdateHvacFacts.
Variable str_to_int : string -> option Z.

Lemma update_hvac_facts (req : option pyval) (now : datetime) (s : server)
    (out : response * server) :
  out = update_hvac str_to_int req now s ->
  let h := hvac_settings s in
  let h' := hvac_settings (snd out) in
  (latest_data (snd out) = latest_data s
   /\ schedule_settings (snd out) = schedule_settings s
   /\ data_file (snd out) = data_file s)
  /\ (snd (fst out) = 200 \/ snd (fst out) = 400 \/ snd (fst out) = 500)%nat
  /\ (snd (fst out) = 200%nat ->
      fst (fst out) = HvacUpdated h'
      /\ source h' = Some "web"
      /\ hvac_timestamp h' = Some (strftime_full now))
  /\ (snd (fst out) <> 200%nat ->
      set_temp h' = set_temp h /\ mode h' = mode h
      /\ fan_speed h' = fan_speed h /\ timer h' = timer h
      /\ swing h' = swing h /\ hvac_timestamp h' = hvac_timestamp h
      /\ source h' = source h)
  /\ (snd (fst out) = 400%nat ->
      fst (fst out) = Error "Temperature must be between 16°C and 30°C").
Proof.
  intros E. unfold update_hvac, update_hvac_body in E.
  destruct req as [data |]; [destruct data as [| | | | s0 | l | d] |];
    step_handler_in E; try (subst out; facts; fail).
  - destruct (contains "power" s0); [subst out; facts; fail |].
    destruct (contains "set_temp" s0); [subst out; facts; fail |].
    destruct (contains "mode" s0); [subst out; facts; fail |].
    destruct (contains "fan_speed" s0); [subst out; facts; fail |].
    destruct (contains "timer" s0); [subst out; facts; fail |].
    destruct (contains "swing" s0); subst out; facts.
  - destruct (existsb (eq_str "power") l); [subst out; facts; fail |].
    destruct (existsb (eq_str "set_temp") l); [subst out; facts; fail |].
    destruct (existsb (eq_str "mode") l); [subst out; facts; fail |].
    destruct (existsb (eq_str "fan_speed") l); [subst out; facts; fail |].
    destruct (existsb (eq_str "timer") l); [subst out; facts; fail |].
    destruct (existsb (eq_str "swing") l); subst out; facts.
  - destruct (d !! "power"), (d !! "set_temp") as [v |]; cbn in E;
      [ destruct (py_int str_to_int v) as [e | temp]; cbn in E;
        [| destruct ((16 <=? temp) && (temp <=? 30)); cbn in E ] |
      | destruct (py_int str_to_int v) as [e | temp]; cbn in E;
        [| destruct ((16 <=? temp) && (temp <=? 30)); cbn in E ] | ];
      try (subst out; facts; fail);
      destruct (d !! "mode"), (d !! "fan_speed"), (d !! "timer"),
        (d !! "swing"); cbn in E; subst out; facts.
Qed.
End UpdateHvacFacts.

Section ScheduleFacts.

Variable other_digit : string -> option (nat * string).

Lemma update_schedule_facts (req : option pyval) (now : datetime) (s : server)
    (out : response * server) :
  out = update_schedule other_digit req now s ->
  let c := schedule_settings s in
  let c' := schedule_settings (snd out) in
  (latest_data (snd out) = latest_data s
   /\ hvac_settings (snd out) = hvac_settings s
   /\ data_file (snd out) = data_file s)
  /\ (snd (fst out) = 200 \/ snd (fst out) = 400 \/ snd (fst out) = 500)%nat
  /\ (snd (fst out) = 200%nat ->
      fst (fst out) = ScheduleUpdated c'
      /\ schedule_timestamp c' = Some (strftime_full now))
  /\ (snd (fst out) <> 200%nat ->
      end_time c' = end_time c
      /\ schedule_timestamp c' = schedule_timestamp c).
Proof.
  intros E. unfold update_schedule, update_schedule_body in E.
  destruct req as [data |]; [destruct data as [| | | | s0 | l | d] |];
    step_handler_in E; try (subst out; facts; fail).
  - destruct (contains "enabled" s0); [subst out; facts; fail |].
    destruct (contains "start_time" s0); [subst out; facts; fail |].
    destruct (contains "end_time" s0); subst out; facts.
  - destruct (existsb (eq_str "enabled") l); [subst out; facts; fail |].
    destruct (existsb (eq_str "start_time") l); [subst out; facts; fail |].
    destruct (existsb (eq_str "end_time") l); subst out; facts.
  - destruct (d !! "enabled"); cbn in E;
      (destruct (d !! "start_time") as [v1 |]; cbn in E;
       [ destruct (strptime_HM other_digit v1) as [[] | [h1 m1]], v1; cbn in E;
         try (subst out; facts; fail) | ];
       (destruct (d !! "end_time") as [v2 |]; cbn in E;
        [ destruct (strptime_HM other_digit v2) as [[] | [h2 m2]], v2; cbn in E | ];
        subst out; facts)).
Qed.

End ScheduleFacts.

(** ** The bootstrap of the file *)

(** X1: [init_csv] always leaves a file; it writes the header row only
    when there was no file, keeps the rows of a file that exists as they
    are, and running it again changes nothing. *)
Theorem init_csv_keeps_existing (f : option (list csv_row)) :
  exists rows,
    init_csv f = Some rows
    /\ (f = None -> rows = [csv_header])
    /\ (forall old, f = Some old -> rows = old)
    /\ init_csv (init_csv f) = init_csv f.
Proof.
  destruct f as [old |]; cbn.
  - exists old. repeat split; [discriminate | congruence].
  - exists [csv_header]. repeat split. discriminate.
Qed.

(** ** Every answer of [receive_data] *)

Section ReceiveOutcomes.

Variable py_str : pyval -> string.

(** X2: when [receive_data] answers 200, the answer carries the
    timestamp of the reading, [get_current] gives the reading (both
    fields set, with that timestamp), and the append has not raised;
    when the row was written whole, the file has exactly one row more:
    the timestamp and the two fields as text. *)
Theorem receive_data_success_appends (req : option pyval) (now : datetime)
    (disk : write_outcome) (s : server) :
  let out := receive_data py_str req now disk s in
  let ts := strftime_full now in
  snd (fst out) = 200%nat ->
  fst (fst out) = Ingested ts
  /\ temperature (get_current (snd out)) <> PNone
  /\ humidity (get_current (snd out)) <> PNone
  /\ latest_timestamp (get_current (snd out)) = Some ts
  /\ append_raises disk = None
  /\ (disk = Written ->
      data_file (snd out)
      = append_row [ts; py_str (temperature (get_current (snd out)));
                    py_str (humidity (get_current (snd out)))]
          (data_file s)).
Proof.
  intros out ts H.
  destruct (receive_data_facts py_str req now disk s out eq_refl)
    as (_ & _ & _ & F & _).
  exact (F H).
Qed.

(** X3: a request that [receive_data] does not answer with 200 writes
    nothing to the file, unless it is the write itself that was torn: a
    request that is rejected, or raises before the append, or whose
    [open] raises, leaves the CSV file as it was. *)
Theorem receive_data_failure_keeps_file (req : option pyval) (now : datetime)
    (disk : write_outcome) (s : server) :
  let out := receive_data py_str req now disk s in
  snd (fst out) <> 200%nat -> clean_write disk ->
  data_file (snd out) = data_file s.
Proof.
  intros out H Hc.
  destruct (receive_data_facts py_str req now disk s out eq_refl)
    as (_ & _ & _ & _ & F & _).
  exact (F H Hc).
Qed.

(** X4: a request whose body does not decode, or decodes to something
    that is not a JSON object, is answered 500 and changes nothing. *)
Theorem receive_data_not_an_object (req : option pyval) (now : datetime)
    (disk : write_outcome) (s : server) :
  (forall d, req <> Some (PDict d)) ->
  exists e,
    receive_data py_str req now disk s = ((ErrorOf e, 500%nat), s)
    /\ (e = BadRequest \/ e = AttributeError).
Proof.
  intros H. unfold receive_data, receive_data_body.
  destruct req as [data |]; [destruct data |]; step_handler;
    try (eexists; split; [reflexivity | auto]; fail).
  now destruct (H d).
Qed.

(** X5: a reading with both fields whose ['hvac'] is not a JSON object
    is answered 500 after [latest_data] has been replaced:
    [hvac_settings] and the file are as before, and no row is written
    for the reading that [get_current] now shows. *)
Theorem receive_data_bad_snapshot (d : gmap string pyval) (t h hvac : pyval)
    (now : datetime) (disk : write_outcome) (s : server) :
  d !! "temperature" = Some t -> t <> PNone ->
  d !! "humidity" = Some h -> h <> PNone ->
  d !! "hvac" = Some hvac -> (forall hv, hvac <> PDict hv) ->
  receive_data py_str (Some (PDict d)) now disk s
  = ((ErrorOf AttributeError, 500%nat),
     {| latest_data :=
          {| temperature := t; humidity := h;
             latest_timestamp := Some (strftime_full now) |};
        hvac_settings := hvac_settings s;
        schedule_settings := schedule_settings s;
        data_file := data_file s |}).
Proof.
  intros Ht Nt Hh Nh Hv Hn. unfold receive_data, receive_data_body.
  step_handler. rewrite Ht, Hh. cbn [from_option id].
  rewrite (is_none_false t Nt), (is_none_false h Nh). cbn [orb].
  rewrite Hv. destruct hvac; try reflexivity. now destruct (Hn d0).
Qed.


End ReceiveOutcomes.

Lemma receive_data_success_appends_witness :
  let out := receive_data cell_of
               (Some (PDict {[ "temperature" := PInt 25; "humidity" := PInt 50 ]}))
               example_time Written (initial_server None) in
  fst (fst out) = Ingested "2026-01-09 03:04:59"
  /\ data_file (snd out)
     = Some [csv_header; ["2026-01-09 03:04:59"; "25"; "50"]].
Proof.
  intros out.
  assert (snd (fst out) = 200%nat) as Ok by reflexivity.
  destruct (receive_data_success_appends cell_of
              (Some (PDict {[ "temperature" := PInt 25; "humidity" := PInt 50 ]}))
              example_time Written (initial_server None) Ok)
    as (E & _ & _ & _ & _ & F).
  split; [exact E | etransitivity; [exact (F eq_refl) | reflexivity]].
Defined.

Lemma receive_data_failure_keeps_file_witness :
  data_file (snd (receive_data cell_of
                    (Some (PDict {[ "temperature" := PInt 25;
                                    "humidity" := PInt 50 ]}))
                    example_time NotWritten (initial_server None)))
  = Some [csv_header].
Proof.
  rewrite (receive_data_failure_keeps_file cell_of _ example_time NotWritten
             (initial_server None));
    [reflexivity | vm_compute; discriminate | right; reflexivity].
Defined.

Lemma receive_data_not_an_object_witness :
  exists e,
    receive_data cell_of (Some (PList [PInt 25; PInt 50])) example_time Written
      (initial_server None)
    = ((ErrorOf e, 500%nat), initial_server None)
    /\ (e = BadRequest \/ e = AttributeError).
Proof.
  apply (receive_data_not_an_object cell_of). discriminate.
Defined.

Lemma receive_data_bad_snapshot_witness :
  let out := receive_data cell_of
               (Some (PDict {[ "temperature" := PInt 25; "humidity" := PInt 50;
                               "hvac" := PStr "on" ]}))
               example_time Written (initial_server None) in
  snd (fst out) = 500%nat
  /\ temperature (get_current (snd out)) = PInt 25
  /\ data_file (snd out) = Some [csv_header].
Proof.
  intros out. subst out.
  rewrite (receive_data_bad_snapshot cell_of _ (PInt 25) (PInt 50) (PStr "on"));
    [repeat split | reflexivity | discriminate | reflexivity | discriminate
    | reflexivity | discriminate].
Defined.

(** ** Every answer of [update_hvac] *)

Section WebOutcomes.

Variable str_to_int : string -> option Z.

(** X7: whatever the request, [update_hvac] changes nothing but
    [hvac_settings]: the latest reading, the schedule and the file are
    as before. *)
Theorem update_hvac_touches_hvac_only (req : option pyval) (now : datetime)
    (s : server) :
  let out := update_hvac str_to_int req now s in
  get_current (snd out) = get_current s
  /\ get_schedule (snd out) = get_schedule s
  /\ data_file (snd out) = data_file s.
Proof.
  intros out.
  destruct (update_hvac_facts str_to_int req now s out eq_refl) as (F & _).
  exact F.
Qed.

(** X8: whatever the request, when [update_hvac] answers anything but
    200, the record keeps its set point, mode, fan speed, timer, swing,
    timestamp and source: a command that fails changes at most the
    power, and never stamps the record. *)
Theorem update_hvac_failure_power_only (req : option pyval) (now : datetime)
    (s : server) :
  let out := update_hvac str_to_int req now s in
  let h := get_hvac s in
  let h' := get_hvac (snd out) in
  snd (fst out) <> 200%nat ->
  set_temp h' = set_temp h /\ mode h' = mode h
  /\ fan_speed h' = fan_speed h /\ timer h' = timer h
  /\ swing h' = swing h /\ hvac_timestamp h' = hvac_timestamp h
  /\ source h' = source h.
Proof.
  intros out h h' H.
  destruct (update_hvac_facts str_to_int req now s out eq_refl)
    as (_ & _ & _ & F & _).
  exact (F H).
Qed.

(** X9: whatever the request, when [update_hvac] answers 200 the
    record is stamped with the source 'web' and the time of the request,
    and the settings in the answer are the record that the device then
    gets from [get_hvac_command]. *)
Theorem update_hvac_success_stamped (req : option pyval) (now : datetime)
    (s : server) :
  let out := update_hvac str_to_int req now s in
  snd (fst out) = 200%nat ->
  fst (fst out) = HvacUpdated (get_hvac_command (snd out))
  /\ source (get_hvac_command (snd out)) = Some "web"
  /\ hvac_timestamp (get_hvac_command (snd out)) = Some (strftime_full now).
Proof.
  intros out H.
  destruct (update_hvac_facts str_to_int req now s out eq_refl)
    as (_ & _ & F & _).
  exact (F H).
Qed.

(** X10: a web command that is a JSON object whose set point, when it
    has one, converts to an integer within 16..30 is answered 200 and
    merged key by key: every field whose key the body does not have
    keeps its value, the set point is stored as that integer, and the
    other keys as they come. *)
Theorem update_hvac_merges_keys (d : gmap string pyval) (now : datetime)
    (s : server) :
  set_temp_accepted str_to_int d ->
  let out := update_hvac str_to_int (Some (PDict d)) now s in
  let h := get_hvac s in
  let h' := get_hvac (snd out) in
  snd (fst out) = 200%nat
  /\ power h' = default (power h) (d !! "power")
  /\ mode h' = default (mode h) (d !! "mode")
  /\ fan_speed h' = default (fan_speed h) (d !! "fan_speed")
  /\ timer h' = default (timer h) (d !! "timer")
  /\ swing h' = default (swing h) (d !! "swing")
  /\ (d !! "set_temp" = None -> set_temp h' = set_temp h)
  /\ (forall v temp, d !! "set_temp" = Some v ->
        py_int str_to_int v = inr temp -> set_temp h' = PInt temp).
Proof.
  intros Acc out h h'. subst out h h'.
  rewrite (update_hvac_accepted str_to_int d now s Acc).
  cbn [fst snd get_hvac hvac_settings with_hvac_settings web_record
       power mode fan_speed timer swing set_temp].
  repeat split.
  - intros ->. reflexivity.
  - intros v temp -> ->. reflexivity.
Qed.

End WebOutcomes.

Lemma update_hvac_failure_power_only_witness :
  let s := snd (update_hvac int_of_digits (Some (PDict example_command))
                  example_time (initial_server None)) in
  let out := update_hvac int_of_digits
               (Some (PDict {[ "power" := PStr "off"; "set_temp" := PInt 31;
                               "mode" := PStr "heat" ]}))
               example_time s in
  set_temp (get_hvac (snd out)) = PInt 24
  /\ mode (get_hvac (snd out)) = PNone
  /\ source (get_hvac (snd out)) = Some "web".
Proof.
  intros s out.
  assert (snd (fst out) <> 200%nat) as Ko by (vm_compute; discriminate).
  destruct (update_hvac_failure_power_only int_of_digits _ example_time s Ko)
    as (E1 & E2 & _ & _ & _ & _ & E7).
  split; [etransitivity; [exact E1 | reflexivity] |].
  split; [etransitivity; [exact E2 | reflexivity] |].
  etransitivity; [exact E7 | reflexivity].
Defined.

Lemma update_hvac_success_stamped_witness :
  let out := update_hvac int_of_digits (Some (PDict example_command))
               example_time (initial_server None) in
  source (get_hvac_command (snd out)) = Some "web"
  /\ hvac_timestamp (get_hvac_command (snd out)) = Some "2026-01-09 03:04:59".
Proof.
  intros out.
  assert (snd (fst out) = 200%nat) as Ok by reflexivity.
  destruct (update_hvac_success_stamped int_of_digits _ example_time
              (initial_server None) Ok) as (_ & So & Ts).
  split; [exact So | exact Ts].
Defined.

Lemma update_hvac_merges_keys_witness :
  let s := with_hvac_settings (hvac_store (WMode (PStr "cool")))
             (initial_server None) in
  let out := update_hvac int_of_digits
               (Some (PDict {[ "set_temp" := PStr "30" ]})) example_time s in
  snd (fst out) = 200%nat
  /\ mode (get_hvac (snd out)) = PStr "cool"
  /\ set_temp (get_hvac (snd out)) = PInt 30.
Proof.
  intros s out.
  destruct (update_hvac_merges_keys int_of_digits {[ "set_temp" := PStr "30" ]}
              example_time s)
    as (Ok & _ & Mo & _ & _ & _ & _ & St).
  { right. exists (PStr "30"), 30.
    split; [reflexivity | split; [reflexivity | lia]]. }
  split; [exact Ok |].
  split; [etransitivity; [exact Mo | reflexivity] |].
  exact (St (PStr "30") 30 eq_refl eq_refl).
Defined.

(** ** Every answer of [update_schedule] *)

Section ScheduleOutcomes.

Variable other_digit : string -> option (nat * string).

(** X11: whatever the request, [update_schedule] changes nothing but
    [schedule_settings]: the latest reading, the HVAC record and the file
    are as before. *)
Theorem update_schedule_touches_schedule_only (req : option pyval)
    (now : datetime) (s : server) :
  let out := update_schedule other_digit req now s in
  get_current (snd out) = get_current s
  /\ get_hvac (snd out) = get_hvac s
  /\ data_file (snd out) = data_file s.
Proof.
  intros out.
  destruct (update_schedule_facts other_digit req now s out eq_refl) as (F & _).
  exact F.
Qed.

(** X12: whatever the request, when [update_schedule] answers anything
    but 200 the end time and the timestamp of the schedule are as before
    (the enabled flag and the start time may already have been stored);
    when it answers 200 the timestamp is the time of the request and the
    schedule in the answer is the one [get_schedule] then gives. *)
Theorem update_schedule_by_status (req : option pyval) (now : datetime)
    (s : server) :
  let out := update_schedule other_digit req now s in
  let c := get_schedule s in
  let c' := get_schedule (snd out) in
  (snd (fst out) <> 200%nat ->
   end_time c' = end_time c /\ schedule_timestamp c' = schedule_timestamp c)
  /\ (snd (fst out) = 200%nat ->
      fst (fst out) = ScheduleUpdated c'
      /\ schedule_timestamp c' = Some (strftime_full now)).
Proof.
  intros out c c'.
  destruct (update_schedule_facts other_digit req now s out eq_refl)
    as (_ & _ & F200 & Fko).
  split; [exact Fko | exact F200].
Qed.

(** A schedule update with both times as HH:MM texts. *)
Lemma update_schedule_stores_hhmm (d : gmap string pyval)
    (h1 m1 h2 m2 : nat) (now : datetime) (s : server) :
  (h1 < 24)%nat -> (m1 < 60)%nat -> (h2 < 24)%nat -> (m2 < 60)%nat ->
  d !! "start_time" = Some (PStr (hhmm h1 m1)) ->
  d !! "end_time" = Some (PStr (hhmm h2 m2)) ->
  let c' := {| enabled := match d !! "enabled" with
                          | Some v => py_bool v
                          | None => enabled (get_schedule s)
                          end;
               start_time := hhmm h1 m1;
               end_time := hhmm h2 m2;
               schedule_timestamp := Some (strftime_full now) |} in
  update_schedule other_digit (Some (PDict d)) now s
  = ((ScheduleUpdated c', 200%nat), with_schedule_settings (fun _ => c') s).
Proof.
  intros H1 M1 H2 M2 Hs He c'. subst c'.
  unfold update_schedule, update_schedule_body, store_time.
  step_handler. rewrite Hs, He.
  rewrite (strptime_hhmm other_digit h1 m1 H1 M1),
    (strptime_hhmm other_digit h2 m2 H2 M2).
  destruct s as [l h c f]. destruct (d !! "enabled"); reflexivity.
Qed.

(** X13: a schedule update that is a JSON object with both times given
    as HH:MM texts of times of day is answered 200; the two texts are
    stored as they are, the enabled flag becomes the truth value of the
    body's ['enabled'] or stays when the body has none, and the
    timestamp is the time of the request. *)
Theorem update_schedule_accepts_hhmm (d : gmap string pyval)
    (h1 m1 h2 m2 : nat) (now : datetime) (s : server) :
  (h1 < 24)%nat -> (m1 < 60)%nat -> (h2 < 24)%nat -> (m2 < 60)%nat ->
  d !! "start_time" = Some (PStr (hhmm h1 m1)) ->
  d !! "end_time" = Some (PStr (hhmm h2 m2)) ->
  let c' := {| enabled := match d !! "enabled" with
                          | Some v => py_bool v
                          | None => enabled (get_schedule s)
                          end;
               start_time := hhmm h1 m1;
               end_time := hhmm h2 m2;
               schedule_timestamp := Some (strftime_full now) |} in
  update_schedule other_digit (Some (PDict d)) now s
  = ((ScheduleUpdated c', 200%nat), with_schedule_settings (fun _ => c') s).
Proof.
  intros H1 M1 H2 M2 Hs He.
  exact (update_schedule_stores_hhmm d h1 m1 h2 m2 now s H1 M1 H2 M2 Hs He).
Qed.

(** X14: the enabled flag is the truth value Python gives the body's
    ['enabled'], and it is stored before the times are checked: it holds
    whatever the answer.  In particular every non-empty text, 'false'
    included, enables the schedule. *)
Theorem update_schedule_enabled_truthiness (d : gmap string pyval) (v : pyval)
    (now : datetime) (s : server) :
  d !! "enabled" = Some v ->
  let out := update_schedule other_digit (Some (PDict d)) now s in
  enabled (get_schedule (snd out)) = py_bool v
  /\ (forall t, v = PStr t -> t <> EmptyString ->
      enabled (get_schedule (snd out)) = true).
Proof.
  intros Hv out.
  assert (enabled (get_schedule (snd out)) = py_bool v) as E.
  { remember out as o eqn:Eo. subst out.
    unfold update_schedule, update_schedule_body in Eo.
    step_handler_in Eo. rewrite Hv in Eo. cbn in Eo.
    destruct (d !! "start_time") as [v1 |]; cbn in Eo;
      [ destruct (strptime_HM other_digit v1) as [[] | [h1 m1]], v1; cbn in Eo;
        try (subst o; reflexivity) | ];
      (destruct (d !! "end_time") as [v2 |]; cbn in Eo;
       [ destruct (strptime_HM other_digit v2) as [[] | [h2 m2]], v2; cbn in Eo | ];
       subst o; reflexivity). }
  split; [exact E |].
  intros t -> Ht. rewrite E. cbn.
  destruct t; [now destruct Ht | reflexivity].
Qed.

End ScheduleOutcomes.

Lemma update_schedule_by_status_witness :
  let out := update_schedule no_other_digit
               (Some (PDict {[ "enabled" := PBool true;
                               "start_time" := PStr "22:00";
                               "end_time" := PStr "25:00" ]}))
               example_time (initial_server None) in
  snd (fst out) = 400%nat
  /\ end_time (get_schedule (snd out)) = "05:00"
  /\ schedule_timestamp (get_schedule (snd out)) = None
  /\ start_time (get_schedule (snd out)) = "22:00".
Proof.
  intros out.
  destruct (update_schedule_by_status no_other_digit
              (Some (PDict {[ "enabled" := PBool true;
                              "start_time" := PStr "22:00";
                              "end_time" := PStr "25:00" ]}))
              example_time (initial_server None)) as (Ko & _).
  destruct Ko as (E & T); [vm_compute; discriminate |].
  split; [reflexivity |].
  split; [etransitivity; [exact E | reflexivity] |].
  split; [etransitivity; [exact T | reflexivity] | reflexivity].
Defined.

Lemma update_schedule_accepts_hhmm_witness :
  let out := update_schedule no_other_digit
               (Some (PDict {[ "start_time" := PStr "08:00";
                               "end_time" := PStr "20:00" ]}))
               example_time (initial_server None) in
  snd (fst out) = 200%nat
  /\ start_time (get_schedule (snd out)) = "08:00"
  /\ end_time (get_schedule (snd out)) = "20:00"
  /\ enabled (get_schedule (snd out)) = false.
Proof.
  intros out. subst out.
  rewrite (update_schedule_accepts_hhmm no_other_digit
             {[ "start_time" := PStr "08:00"; "end_time" := PStr "20:00" ]}
             8 0 20 0 example_time (initial_server None));
    [repeat split | lia | lia | lia | lia | reflexivity | reflexivity].
Defined.

Lemma update_schedule_enabled_truthiness_witness :
  enabled (get_schedule
             (snd (update_schedule no_other_digit
                     (Some (PDict {[ "enabled" := PStr "false" ]}))
                     example_time (initial_server None))))
  = true.
Proof.
  assert (({[ "enabled" := PStr "false" ]} : gmap string pyval) !! "enabled"
          = Some (PStr "false")) as Hv by reflexivity.
  destruct (update_schedule_enabled_truthiness no_other_digit
              {[ "enabled" := PStr "false" ]} (PStr "false") example_time
              (initial_server None) Hv) as (_ & T).
  apply (T "false"); [reflexivity | discriminate].
Defined.

(** ** The evaluation of the schedule *)

(** On the texts of times of day, the handler's decision is the window
    on the minutes of the day. *)
Lemma should_be_on_minutes (s : server) (now : datetime) (sh sm eh em : nat) :
  (sh < 24)%nat -> (sm < 60)%nat -> (eh < 24)%nat -> (em < 60)%nat ->
  (hour now < 24)%nat -> (minute now < 60)%nat ->
  enabled (schedule_settings s) = true ->
  start_time (schedule_settings s) = hhmm sh sm ->
  end_time (schedule_settings s) = hhmm eh em ->
  should_be_on now s
  = Some (in_window (minute_of_day sh sm) (minute_of_day eh em)
            (minute_of_day (hour now) (minute now))).
Proof.
  intros Hsh Hsm Heh Hem Hh Hm En St Ed.
  unfold should_be_on, get_schedule_status, get_schedule_status_body.
  step_handler. rewrite En, St, Ed. cbn [negb fst].
  unfold strftime_HM, str_gt, str_ge, in_window.
  fold (str_lt (hhmm eh em) (hhmm sh sm)).
  fold (str_le (hhmm sh sm) (hhmm (hour now) (minute now))).
  rewrite !str_lt_hhmm, !str_le_hhmm by assumption.
  reflexivity.
Qed.

(** X15: asking for the schedule status never changes the state and
    always answers 200; the answer has no [should_be_on] exactly when the
    schedule is disabled, whatever the stored times and the clock. *)
Theorem schedule_status_reads_only (now : datetime) (s : server) :
  snd (get_schedule_status now s) = s
  /\ snd (fst (get_schedule_status now s)) = 200%nat
  /\ (should_be_on now s = None <-> enabled (get_schedule s) = false).
Proof.
  unfold should_be_on, get_schedule_status, get_schedule_status_body, get_schedule.
  step_handler. destruct (enabled (schedule_settings s)); cbn.
  - repeat split; discriminate.
  - repeat split.
Qed.

(** X16: exchanging the start and the end of an enabled schedule whose
    two times differ turns the decision around: at every time of day the
    unit is to be on under exactly one of the two schedules. *)
Theorem schedule_swap_complement (s1 s2 : server) (now : datetime)
    (sh sm eh em : nat) :
  (sh < 24)%nat -> (sm < 60)%nat -> (eh < 24)%nat -> (em < 60)%nat ->
  (hour now < 24)%nat -> (minute now < 60)%nat ->
  minute_of_day sh sm <> minute_of_day eh em ->
  enabled (get_schedule s1) = true ->
  start_time (get_schedule s1) = hhmm sh sm ->
  end_time (get_schedule s1) = hhmm eh em ->
  enabled (get_schedule s2) = true ->
  start_time (get_schedule s2) = hhmm eh em ->
  end_time (get_schedule s2) = hhmm sh sm ->
  exists b, should_be_on now s1 = Some b
            /\ should_be_on now s2 = Some (negb b).
Proof.
  intros Hsh Hsm Heh Hem Hh Hm Ne En1 St1 Ed1 En2 St2 Ed2.
  rewrite (should_be_on_minutes s1 now sh sm eh em) by assumption.
  rewrite (should_be_on_minutes s2 now eh em sh sm) by assumption.
  eexists. split; [reflexivity |]. f_equal.
  unfold in_window.
  generalize dependent (minute_of_day sh sm).
  generalize dependent (minute_of_day eh em).
  generalize (minute_of_day (hour now) (minute now)).
  intros t e a Ne.
  destruct (Nat.ltb_spec a e), (Nat.ltb_spec e a), (Nat.leb_spec e t),
    (Nat.leb_spec a t), (Nat.ltb_spec t a), (Nat.ltb_spec t e);
    cbn; try reflexivity; lia.
Qed.

(** X17: a schedule saved with both times as HH:MM texts and a true
    ['enabled'] is then evaluated on those times: polling the status at
    any time of day gives the window from the saved start to the saved
    end, the overnight one when the end is before the start. *)
Theorem saved_schedule_is_evaluated
    (other_digit : string -> option (nat * string))
    (d : gmap string pyval) (v : pyval)
    (h1 m1 h2 m2 : nat) (saved polled : datetime) (s : server) :
  (h1 < 24)%nat -> (m1 < 60)%nat -> (h2 < 24)%nat -> (m2 < 60)%nat ->
  (hour polled < 24)%nat -> (minute polled < 60)%nat ->
  d !! "enabled" = Some v -> py_bool v = true ->
  d !! "start_time" = Some (PStr (hhmm h1 m1)) ->
  d !! "end_time" = Some (PStr (hhmm h2 m2)) ->
  should_be_on polled
    (snd (update_schedule other_digit (Some (PDict d)) saved s))
  = Some (in_window (minute_of_day h1 m1) (minute_of_day h2 m2)
            (minute_of_day (hour polled) (minute polled))).
Proof.
  intros H1 M1 H2 M2 Hh Hm Hv Tv Hs He.
  rewrite (update_schedule_stores_hhmm other_digit d h1 m1 h2 m2 saved s
             H1 M1 H2 M2 Hs He).
  cbn [snd]. rewrite Hv.
  apply should_be_on_minutes; try assumption; reflexivity || exact Tv.
Qed.

Lemma schedule_swap_complement_witness :
  let night := with_schedule_settings (set_enabled true) (initial_server None) in
  let day := with_schedule_settings
               (fun c => set_end_time "23:00" (set_start_time "05:00" c)) night in
  let noon : datetime :=
    {| year := 2026; month := 1; day := 9; hour := 12; minute := 0; second := 0 |} in
  exists b, should_be_on noon night = Some b
            /\ should_be_on noon day = Some (negb b).
Proof.
  intros night day noon.
  apply (schedule_swap_complement night day noon 23 0 5 0);
    solve [cbn; lia | vm_compute; discriminate | reflexivity].
Defined.

Lemma saved_schedule_is_evaluated_witness :
  let d : gmap string pyval :=
    {[ "enabled" := PBool true; "start_time" := PStr "22:30";
       "end_time" := PStr "06:15" ]} in
  let polled : datetime :=
    {| year := 2026; month := 1; day := 10; hour := 6; minute := 14; second := 0 |} in
  should_be_on polled
    (snd (update_schedule no_other_digit (Some (PDict d)) example_time
            (initial_server None)))
  = Some true.
Proof.
  intros d polled.
  rewrite (saved_schedule_is_evaluated no_other_digit d (PBool true) 22 30 6 15 example_time
             polled (initial_server None));
    solve [reflexivity | cbn; lia].
Defined.

(** ** More on the history *)

Lemma length_dict_reader (rows : list csv_row) :
  (List.length (dict_reader rows) <= List.length rows - 1)%nat.
Proof.
  destruct rows as [| fieldnames rest]; cbn; [lia |].
  rewrite length_map, Nat.sub_0_r. apply List.filter_length_le.
Qed.

Lemma length_last_n_le {A} (n : nat) (l : list A) :
  (List.length (last_n n l) <= List.length l)%nat.
Proof. unfold last_n. rewrite length_skipn. lia. Qed.

Lemma forallb_firstn {A} (f : A -> bool) (n : nat) (l : list A) :
  forallb f l = true -> forallb f (firstn n l) = true.
Proof.
  intros H. rewrite <- (firstn_skipn n l), forallb_app in H.
  apply andb_true_iff in H as [H _]. exact H.
Qed.

(** X18: when the file is read, [get_history] either answers 200 with
    at most 50 entries, and never more than the file has rows after its
    first one, which only names the fields, or it fails on an entry that
    [jsonify] cannot write.  It answers 200 when no row has more cells
    than the first; without a file, or with an empty one, the history is
    the empty list. *)
Theorem history_is_bounded (s : server) :
  ((exists hist,
      get_history ReadDone s = Responded (History hist, 200%nat)
      /\ (List.length hist <= 50)%nat
      /\ (List.length hist <= List.length (default [] (data_file s)) - 1)%nat)
   \/ get_history ReadDone s = Unhandled TypeError)
  /\ (forall fieldnames rest,
        data_file s = Some (fieldnames :: rest) ->
        Forall (fun row => (List.length row <= List.length fieldnames)%nat)
          rest ->
        exists hist, get_history ReadDone s = Responded (History hist, 200%nat))
  /\ (data_file s = None \/ data_file s = Some [] ->
      get_history ReadDone s = Responded (History [], 200%nat)).
Proof.
  unfold get_history. split; [| split].
  - destruct (data_file s) as [rows |]; cbn.
    + destruct (forallb sortable_keys (rev (last_n 50 (dict_reader rows))));
        [left | right; reflexivity].
      eexists. split; [reflexivity |]. rewrite length_rev. split.
      * apply length_last_n.
      * etransitivity; [apply length_last_n_le | apply length_dict_reader].
    + left. exists []. repeat split; cbn; lia.
  - intros fieldnames rest -> Hfit.
    rewrite (forallb_rev_last_n _ _ _ (dict_reader_sortable _ _ Hfit)).
    eexists. reflexivity.
  - intros [-> | ->]; reflexivity.
Qed.

Section HistoryAfterPost.

Variable py_str : pyval -> string.

(** X19: the file has the header of [init_csv] and the history is
    answered.  When [receive_data] answers 200 and its row is written
    whole, the history gains one entry at its front and keeps at most 50:
    it is the first 50 of the new entry followed by the history before.
    The new entry names the timestamp of the answer and the texts of the
    two fields that [get_current] now shows, each as it is read back
    from the file (a carriage return comes back as a line feed). *)
Theorem posted_reading_heads_history (req : option pyval) (now : datetime)
    (s : server) (old : list csv_row)
    (hist : list (gmap (option string) csv_value)) :
  data_file s = Some (csv_header :: old) ->
  get_history ReadDone s = Responded (History hist, 200%nat) ->
  let out := receive_data py_str req now Written s in
  snd (fst out) = 200%nat ->
  let entry : gmap (option string) csv_value :=
    {[ Some "Timestamp" := Cell (universal_newlines (strftime_full now));
       Some "Temperature" :=
         Cell (universal_newlines
                 (py_str (temperature (get_current (snd out)))));
       Some "Humidity" :=
         Cell (universal_newlines
                 (py_str (humidity (get_current (snd out))))) ]} in
  get_history ReadDone (snd out)
  = Responded (History (firstn 50 (entry :: hist)), 200%nat).
Proof.
  intros Hf Hh out Ok entry.
  destruct (receive_data_facts py_str req now Written s out eq_refl)
    as (_ & _ & _ & F & _).
  destruct (F Ok) as (_ & _ & _ & _ & _ & Ef). specialize (Ef eq_refl).
  clear F.
  unfold get_history in *. rewrite Ef, Hf in *. cbn [append_row from_option id].
  destruct (forallb sortable_keys
              (rev (last_n 50 (dict_reader (csv_header :: old))))) eqn:Hs;
    [| discriminate].
  injection Hh as <-.
  change ((csv_header :: old) ++ ?l) with (csv_header :: old ++ l).
  unfold dict_reader in *. rewrite List.filter_app, map_app.
  cbn [List.filter is_blank negb map].
  rewrite !rev_last_n in *. rewrite rev_app_distr. cbn [rev app firstn].
  rewrite firstn_firstn. cbn [Nat.min forallb].
  replace (sortable_keys _) with true by reflexivity. cbn [andb].
  rewrite <- (firstn_firstn _ 49 50), forallb_firstn by exact Hs.
  rewrite firstn_firstn. reflexivity.
Qed.

(** X20: after the device has posted readings one after the other,
    [get_current] shows the last one posted, with its timestamp, whatever
    was posted before it. *)
Theorem latest_is_last_posted (rs : list reading) (r : reading) (s : server) :
  reading_ok r ->
  get_current (ingest_all py_str (rs ++ [r]) s)
  = {| temperature := r_temperature r; humidity := r_humidity r;
       latest_timestamp := Some (strftime_full (r_time r)) |}.
Proof.
  intros [Nt Nh]. unfold ingest_all. rewrite foldl_app. cbn [foldl].
  unfold reading_body, get_current.
  rewrite (receive_data_accepted py_str _ (r_temperature r) (r_humidity r)).
  - reflexivity.
  - destruct (r_hvac r); reflexivity.
  - exact Nt.
  - destruct (r_hvac r); reflexivity.
  - exact Nh.
  - destruct (r_hvac r) as [hv |]; [right; exists hv | left]; reflexivity.
Qed.

End HistoryAfterPost.

Lemma posted_reading_heads_history_witness :
  let s := ingest_all cell_of (example_readings 2) (initial_server None) in
  let out := receive_data cell_of (Some (reading_body (example_reading 2)))
               (r_time (example_reading 2)) Written s in
  get_history ReadDone (snd out)
  = Responded
      (History (map (history_entry cell_of)
                  [example_reading 2; example_reading 1; example_reading 0]),
       200%nat).
Proof.
  intros s out. subst out.
  rewrite (posted_reading_heads_history cell_of _ _ s
             (map (reading_row cell_of) (example_readings 2))
             (map (history_entry cell_of)
                [example_reading 1; example_reading 0]));
    reflexivity.
Defined.

Lemma latest_is_last_posted_witness :
  get_current (ingest_all cell_of (example_readings 3) (initial_server None))
  = {| temperature := PInt 2; humidity := PInt 50;
       latest_timestamp := Some "2026-01-09 00:02:00" |}.
Proof.
  change (example_readings 3)
    with (example_readings 2 ++ [example_reading 2]).
  rewrite (latest_is_last_posted cell_of (example_readings 2)
             (example_reading 2) (initial_server None));
    [reflexivity | split; discriminate].
Defined.

(** ** The server over any sequence of requests *)

Section Reachable.

Variable str_to_int : string -> option Z.
Variable py_str : pyval -> string.
Variable other_digit : string -> option (nat * string).

(** What every request keeps is kept by every sequence of requests. *)
Lemma serve_all_invariant (I : server -> Prop) (cs : list call) (s : server) :
  (forall c s, I s -> I (serve str_to_int py_str other_digit c s)) ->
  I s -> I (serve_all str_to_int py_str other_digit cs s).
Proof.
  intros Step. revert s. unfold serve_all.
  induction cs as [| c cs IH]; intros s H; cbn [foldl]; [exact H |].
  apply IH, Step, H.
Qed.

Lemma get_schedule_status_state (now : datetime) (s : server) :
  snd (get_schedule_status now s) = s.
Proof.
  unfold get_schedule_status, get_schedule_status_body. step_handler.
  destruct (enabled (schedule_settings s)); reflexivity.
Qed.

Lemma serve_file_extends (c : call) (s : server) (rows : list csv_row) :
  clean_call c ->
  data_file s = Some rows ->
  exists extra,
    data_file (serve str_to_int py_str other_digit c s) = Some (rows ++ extra)
    /\ (List.length extra <= 1)%nat
    /\ Forall (fun row => List.length row = 3%nat) extra.
Proof.
  intros Hc Hf.
  assert (exists extra, data_file s = Some (rows ++ extra)
                        /\ (List.length extra <= 1)%nat
                        /\ Forall (fun row => List.length row = 3%nat) extra)
    as Same.
  { exists []. rewrite app_nil_r. repeat split; [exact Hf | cbn; lia | constructor]. }
  destruct c as [req now disk | | | req now | | | req now | now | read];
    cbn [serve]; try exact Same.
  - cbn [clean_call] in Hc.
    destruct (receive_data_facts py_str req now disk s _ eq_refl)
      as (_ & _ & _ & F200 & Fko & _).
    destruct (Nat.eq_dec (snd (fst (receive_data py_str req now disk s))) 200%nat)
      as [E | E].
    + destruct (F200 E) as (_ & _ & _ & _ & Er & Ef).
      destruct Hc as [-> | ->]; [| discriminate Er].
      rewrite (Ef eq_refl), Hf.
      eexists. split; [reflexivity |].
      split; [cbn; lia | repeat constructor].
    + rewrite (Fko E Hc). exact Same.
  - destruct (update_hvac_facts str_to_int req now s _ eq_refl)
      as ((_ & _ & F) & _).
    rewrite F. exact Same.
  - destruct (update_schedule_facts other_digit req now s _ eq_refl)
      as ((_ & _ & F) & _).
    rewrite F. exact Same.
  - rewrite get_schedule_status_state. exact Same.
Qed.

Lemma serve_all_file_extends (cs : list call) (s : server)
    (rows : list csv_row) :
  Forall clean_call cs ->
  data_file s = Some rows ->
  exists extra,
    data_file (serve_all str_to_int py_str other_digit cs s)
    = Some (rows ++ extra)
    /\ (List.length extra <= List.length cs)%nat
    /\ Forall (fun row => List.length row = 3%nat) extra.
Proof.
  intros Hcs. revert s rows. unfold serve_all.
  induction Hcs as [| c cs Hc _ IH]; intros s rows Hf; cbn [foldl].
  - exists []. rewrite app_nil_r. repeat split; [exact Hf | cbn; lia | constructor].
  - destruct (serve_file_extends c s rows Hc Hf) as (e1 & E1 & L1 & A1).
    destruct (IH _ _ E1) as (e2 & E2 & L2 & A2).
    exists (e1 ++ e2). rewrite app_assoc. split; [exact E2 |].
    split; [rewrite length_app; cbn [List.length]; lia |].
    apply Forall_app. split; assumption.
Qed.

(** X21: the file is only ever appended to, as long as every append
    either writes its row whole or fails at its [open].  Over any such
    sequence of requests to any of the routes, the rows the file had stay
    where they were, at most one row is added per request, and every
    added row has three cells. *)
Theorem log_is_append_only (cs : list call) (s : server) (rows : list csv_row) :
  Forall clean_call cs ->
  data_file s = Some rows ->
  exists extra,
    data_file (serve_all str_to_int py_str other_digit cs s)
    = Some (rows ++ extra)
    /\ (List.length extra <= List.length cs)%nat
    /\ Forall (fun row => List.length row = 3%nat) extra.
Proof. exact (serve_all_file_extends cs s rows). Qed.

(** X26: a server that started without a file, and so wrote the header
    itself, always answers the history once the file is read: over any
    sequence of requests whose appends write their row whole or fail at
    their [open], no row has more cells than the header, [jsonify] does
    not raise, and the history has at most 50 entries and at most one
    per request. *)
Theorem history_answered_from_start (cs : list call) :
  Forall clean_call cs ->
  exists hist,
    get_history ReadDone
      (serve_all str_to_int py_str other_digit cs (initial_server None))
    = Responded (History hist, 200%nat)
    /\ (List.length hist <= 50)%nat
    /\ (List.length hist <= List.length cs)%nat.
Proof.
  intros Hcs.
  destruct (serve_all_file_extends cs (initial_server None) [csv_header]
              Hcs eq_refl) as (extra & E & L & A).
  unfold get_history. rewrite E. cbn [app].
  rewrite forallb_rev_last_n.
  - eexists. split; [reflexivity |]. rewrite length_rev. split.
    + apply length_last_n.
    + etransitivity; [apply length_last_n_le |].
      etransitivity; [apply length_dict_reader |]. cbn [List.length]. lia.
  - apply dict_reader_sortable.
    eapply List.Forall_impl; [| exact A].
    intros row Hrow. cbn beta. rewrite Hrow. reflexivity.
Qed.

(** X22: from the start of the server on, over any sequence of
    requests, [get_current] gives either the all-unset reading or a
    reading with temperature, humidity and timestamp all set. *)
Theorem latest_reading_is_complete (f : option (list csv_row))
    (cs : list call) :
  reading_complete
    (get_current (serve_all str_to_int py_str other_digit cs (initial_server f))).
Proof.
  apply (serve_all_invariant (fun s => reading_complete (get_current s))).
  - intros c s H. unfold get_current in *.
    destruct c as [req now disk | | | req now | | | req now | now | read];
      cbn [serve]; try exact H.
    + destruct (receive_data_facts py_str req now disk s _ eq_refl)
        as (_ & _ & _ & _ & _ & _ & [E | (Nt & Nh & Et)]).
      * rewrite E. exact H.
      * right. repeat split; [exact Nt | exact Nh | rewrite Et; discriminate].
    + destruct (update_hvac_facts str_to_int req now s _ eq_refl)
        as ((F & _) & _).
      rewrite F. exact H.
    + destruct (update_schedule_facts other_digit req now s _ eq_refl) as ((F & _) & _).
      rewrite F. exact H.
    + rewrite get_schedule_status_state. exact H.
  - left. repeat split.
Qed.

(** X23: from the start of the server on, over any sequence of
    requests handled one after the other, the HVAC record has a timestamp
    exactly when it has a source, and the source is 'arduino' or 'web'. *)
Theorem hvac_record_is_stamped (f : option (list csv_row)) (cs : list call) :
  stamped (get_hvac (serve_all str_to_int py_str other_digit cs (initial_server f))).
Proof.
  apply (serve_all_invariant (fun s => stamped (get_hvac s))).
  - intros c s H. unfold get_hvac in *.
    destruct c as [req now disk | | | req now | | | req now | now | read];
      cbn [serve]; try exact H.
    + destruct (receive_data_facts py_str req now disk s _ eq_refl)
        as (_ & _ & _ & _ & _ & [E | (hv & E)] & _); rewrite E.
      * exact H.
      * right. split; [discriminate | left; reflexivity].
    + destruct (update_hvac_facts str_to_int req now s _ eq_refl)
        as (_ & _ & F200 & Fko & _).
      destruct (Nat.eq_dec (snd (fst (update_hvac str_to_int req now s))) 200%nat)
        as [E | E].
      * destruct (F200 E) as (_ & So & Ts).
        right. split; [rewrite Ts; discriminate | right; exact So].
      * destruct (Fko E) as (_ & _ & _ & _ & _ & Ts & So).
        unfold stamped. rewrite Ts, So. exact H.
    + destruct (update_schedule_facts other_digit req now s _ eq_refl)
        as ((_ & F & _) & _).
      rewrite F. exact H.
    + rewrite get_schedule_status_state. exact H.
  - left. split; reflexivity.
Qed.

(** X24: from the start of the server on, over any sequence of
    requests, the start and the end time that [get_schedule] gives are
    texts that [strptime] reads with the format '%H:%M', whichever
    characters besides 0..9 it takes for decimal digits. *)
Theorem stored_times_always_parse (f : option (list csv_row)) (cs : list call) :
  times_parse other_digit (serve_all str_to_int py_str other_digit cs (initial_server f)).
Proof.
  apply (serve_all_invariant (times_parse other_digit)).
  - intros c s H.
    destruct c as [req now disk | | | req now | | | req now | now | read];
      cbn [serve]; try exact H.
    + destruct (receive_data_facts py_str req now disk s _ eq_refl)
        as (F & _).
      unfold times_parse. rewrite F. exact H.
    + destruct (update_hvac_facts str_to_int req now s _ eq_refl)
        as ((_ & F & _) & _).
      unfold times_parse. rewrite F. exact H.
    + apply update_schedule_times_parse, H.
    + rewrite get_schedule_status_state. exact H.
  - apply initial_times_parse.
Qed.

(** X25: as long as no request is a post of the device, the stored set
    point is unset or an integer within 16..30: from the start of the
    server on, the web routes keep the range. *)
Theorem web_routes_keep_range (f : option (list csv_row)) (cs : list call) :
  Forall not_from_device cs ->
  set_temp_ok (get_hvac (serve_all str_to_int py_str other_digit cs (initial_server f))).
Proof.
  intros Hcs. unfold get_hvac.
  assert (set_temp_ok (hvac_settings (initial_server f))) as H0
    by (left; reflexivity).
  revert H0. generalize (initial_server f). unfold serve_all.
  induction Hcs as [| c cs Hc _ IH]; intros s H; cbn [foldl]; [exact H |].
  apply IH.
  destruct c as [req now disk | | | req now | | | req now | now | read];
    cbn [serve]; try exact H.
  - destruct Hc.
  - apply update_hvac_keeps_range, H.
  - destruct (update_schedule_facts other_digit req now s _ eq_refl) as ((_ & F & _) & _).
    rewrite F. exact H.
  - rewrite get_schedule_status_state. exact H.
Qed.

End Reachable.

Lemma log_is_append_only_witness :
  exists extra,
    data_file
      (serve_all int_of_digits cell_of no_other_digit
         [ PostData (Some (reading_body (example_reading 0))) example_time Written;
           PostHvacUpdate (Some (PDict example_command)) example_time;
           GetHistory ReadDone;
           PostData None example_time Written ]
         (initial_server None))
    = Some ([csv_header] ++ extra)
    /\ (List.length extra <= 4)%nat
    /\ Forall (fun row => List.length row = 3%nat) extra.
Proof.
  apply (log_is_append_only int_of_digits cell_of no_other_digit).
  - repeat constructor.
  - reflexivity.
Defined.

Lemma web_routes_keep_range_witness :
  set_temp_ok
    (get_hvac
       (serve_all int_of_digits cell_of no_other_digit
          [ PostHvacUpdate (Some (PDict example_command)) example_time;
            GetHvacCommand;
            PostHvacUpdate (Some (PDict {[ "set_temp" := PInt 31 ]}))
              example_time ]
          (initial_server None))).
Proof.
  apply (web_routes_keep_range int_of_digits cell_of no_other_digit).
  repeat constructor.
Defined.

Lemma history_answered_from_start_witness :
  exists hist,
    get_history ReadDone
      (serve_all int_of_digits cell_of no_other_digit
         [ PostData (Some (reading_body (example_reading 0))) example_time Written;
           PostData (Some (reading_body (example_reading 1))) example_time NotWritten;
           GetHistory ReadDone ]
         (initial_server None))
    = Responded (History hist, 200%nat)
    /\ (List.length hist <= 50)%nat
    /\ (List.length hist <= 3)%nat.
Proof.
  apply (history_answered_from_start int_of_digits cell_of no_other_digit).
  repeat first [apply List.Forall_cons | apply List.Forall_nil];
    cbn [clean_call]; unfold clean_write; auto.
Defined.
